(** * YouTube AI Content Workflow: a shallow embedding of [src/scripts]

    The repository is a set of Python scripts, one per pipeline stage
    ([download_video.py], [transcribe_audio.py], [summarize_text.py],
    [generate_blog.py], [create_podcast.py]) and an orchestration script
    ([process_video.py]).  Each stage function is embedded as a function in a
    small monad that threads the observable world (files, standard output,
    the trace of collaborator calls) and a Python result (a value or a raised
    exception).  The external libraries (yt_dlp, whisper, transformers,
    openai), the clock and disk faults are an environment the functions are
    parameterised by. *)

From Stdlib Require Import ZArith Ascii String List Lia Bool.
From Stdlib Require Import Decimal DecimalString SpecFloat.
From Stdlib Require DecimalPos DecimalN.
From stdpp Require Import base option gmap strings list.

Local Open Scope Z_scope.

(** ** Python strings

    Text is a [string], one character per code point below 256 (Latin-1).
    The case conversions follow Unicode on these code points. *)
Module PyStr.

Definition quote : string := String (ascii_of_nat 34) EmptyString.
Definition nl : string := String (ascii_of_nat 10) EmptyString.

(** [str.isspace] on the code points below 256. *)
Definition isspace (c : ascii) : bool :=
  let n := nat_of_ascii c in
  ((9 <=? n) && (n <=? 13) || (28 <=? n) && (n <=? 32)
   || (n =? 133) || (n =? 160))%nat.

Fixpoint lstrip (s : string) : string :=
  match s with
  | EmptyString => EmptyString
  | String c s' => if isspace c then lstrip s' else s
  end.

(** [rstrip] keeps a character when it is not a space or when something
    remains after it. *)
Fixpoint rstrip (s : string) : string :=
  match s with
  | EmptyString => EmptyString
  | String c s' =>
      match rstrip s' with
      | EmptyString => if isspace c then EmptyString else String c EmptyString
      | r => String c r
      end
  end.

(** [s.strip()] *)
Definition strip (s : string) : string := rstrip (lstrip s).

(** The upper-case letters below 256: A-Z and the code points 192-222 other
    than the multiplication sign (215).  Their lower case lies 32 above. *)
Definition is_upper (c : ascii) : bool :=
  let n := nat_of_ascii c in
  ((65 <=? n) && (n <=? 90)
   || (192 <=? n) && (n <=? 222) && negb (n =? 215))%nat.

(** The lower-case letters whose upper case lies 32 below: a-z and the code
    points 224-254 other than the division sign (247). *)
Definition is_lower (c : ascii) : bool :=
  let n := nat_of_ascii c in
  ((97 <=? n) && (n <=? 122)
   || (224 <=? n) && (n <=? 254) && negb (n =? 247))%nat.

(** The cased characters: the letters above, the ordinal indicators (170,
    186), the micro sign (181), the sharp s (223) and y with diaeresis
    (255). *)
Definition is_cased (c : ascii) : bool :=
  let n := nat_of_ascii c in
  (is_upper c || is_lower c
   || (n =? 170) || (n =? 181) || (n =? 186) || (n =? 223) || (n =? 255))%nat.

Definition to_lower (c : ascii) : ascii :=
  if is_upper c then ascii_of_nat (nat_of_ascii c + 32) else c.
Definition to_upper (c : ascii) : ascii :=
  if is_lower c then ascii_of_nat (nat_of_ascii c - 32) else c.

(** The title case of one character.  The sharp s becomes the two letters
    [Ss].  The title case of the micro sign (U+039C) and of y with diaeresis
    (U+0178) lies above 255 and cannot be held by a [string]: the two
    characters are kept, and [title_fits] tells the strings without them. *)
Definition to_title (c : ascii) : string :=
  if (nat_of_ascii c =? 223)%nat then "Ss" else String (to_upper c) EmptyString.

Fixpoint map_chars (f : ascii -> ascii) (s : string) : string :=
  match s with
  | EmptyString => EmptyString
  | String c s' => String (f c) (map_chars f s')
  end.

(** [s.lower()] *)
Definition lower (s : string) : string := map_chars to_lower s.

(** [s.title()]: a cased character that follows a cased character is
    lower-cased, any other character is title-cased. *)
Fixpoint title_from (previous_is_cased : bool) (s : string) : string :=
  match s with
  | EmptyString => EmptyString
  | String c s' =>
      (if previous_is_cased then String (to_lower c) EmptyString
       else to_title c)
      +:+ title_from (is_cased c) s'
  end.
Definition title (s : string) : string := title_from false s.

(** The strings whose title case stays below 256: those without the micro
    sign and without y with diaeresis. *)
Fixpoint title_fits (s : string) : bool :=
  match s with
  | EmptyString => true
  | String c s' =>
      negb (nat_of_ascii c =? 181)%nat && negb (nat_of_ascii c =? 255)%nat
      && title_fits s'
  end.

Fixpoint startswith (p s : string) : bool :=
  match p, s with
  | EmptyString, _ => true
  | String a p', String b s' => Ascii.eqb a b && startswith p' s'
  | String _ _, EmptyString => false
  end.

Fixpoint last_char (s : string) : option ascii :=
  match s with
  | EmptyString => None
  | String c EmptyString => Some c
  | String _ s' => last_char s'
  end.

Definition endswith_char (c : ascii) (s : string) : bool :=
  match last_char s with
  | Some d => Ascii.eqb c d
  | None => false
  end.

(** [s.replace(old, new)] for a non-empty [old]: occurrences are replaced
    from the left and do not overlap; [skip] counts the characters of the
    occurrence being consumed. *)
Fixpoint replace_from (old new : string) (skip : nat) (s : string) : string :=
  match s with
  | EmptyString => EmptyString
  | String c s' =>
      match skip with
      | S k => replace_from old new k s'
      | O =>
          if startswith old s
          then new +:+ replace_from old new (String.length old - 1) s'
          else String c (replace_from old new O s')
      end
  end.

Fixpoint intersperse (new s : string) : string :=
  match s with
  | EmptyString => new
  | String c s' => new +:+ String c (intersperse new s')
  end.

Definition replace (old new s : string) : string :=
  match old with
  | EmptyString => intersperse new s
  | _ => replace_from old new O s
  end.

(** *** [repr(s)]

    The string between quotes: apostrophes, unless the string holds an
    apostrophe and no double quote; the backslash and the chosen quote are
    escaped, tab, line feed and carriage return are written [\t], [\n],
    [\r], and any other character that is not printable is written [\xhh]. *)

Definition apostrophe : ascii := ascii_of_nat 39.
Definition double_quote : ascii := ascii_of_nat 34.
Definition backslash : ascii := ascii_of_nat 92.

Fixpoint contains_char (c : ascii) (s : string) : bool :=
  match s with
  | EmptyString => false
  | String d s' => Ascii.eqb c d || contains_char c s'
  end.

(** [str.isprintable] on the code points below 256. *)
Definition is_printable (c : ascii) : bool :=
  let n := nat_of_ascii c in
  negb ((n <? 32) || (127 <=? n) && (n <=? 160) || (n =? 173))%nat.

Definition hex_digit (n : nat) : ascii :=
  if (n <? 10)%nat then ascii_of_nat (48 + n) else ascii_of_nat (87 + n).

Definition repr_char (q c : ascii) : string :=
  let n := nat_of_ascii c in
  if (Ascii.eqb c q || Ascii.eqb c backslash)%bool
  then String backslash (String c EmptyString)
  else if (n =? 9)%nat then String backslash "t"
  else if (n =? 10)%nat then String backslash "n"
  else if (n =? 13)%nat then String backslash "r"
  else if is_printable c then String c EmptyString
  else String backslash
         (String "x" (String (hex_digit (n / 16))
                        (String (hex_digit (n mod 16)) EmptyString))).

Fixpoint repr_chars (q : ascii) (s : string) : string :=
  match s with
  | EmptyString => EmptyString
  | String c s' => repr_char q c +:+ repr_chars q s'
  end.

Definition repr_quote (s : string) : ascii :=
  if (contains_char apostrophe s && negb (contains_char double_quote s))%bool
  then double_quote else apostrophe.

Definition repr (s : string) : string :=
  let q := repr_quote s in
  String q (repr_chars q s +:+ String q EmptyString).

(** Formatting of non-negative integers, as [str(n)]. *)
Definition str_N (n : N) : string := NilZero.string_of_uint (N.to_uint n).

(** *** [os.path.join] and [pathlib.Path(...).stem] (POSIX flavour) *)

Definition slash : ascii := ascii_of_nat 47.
Definition dot : ascii := ascii_of_nat 46.

(** [os.path.join(a, b)] *)
Definition os_path_join (a b : string) : string :=
  if startswith (String slash EmptyString) b then b
  else if (String.eqb a EmptyString || endswith_char slash a)%bool then a +:+ b
  else a +:+ String slash b.

(** The components of a path between slashes; [cur] is the component being
    read. *)
Fixpoint split_slash (cur : string) (s : string) : list string :=
  match s with
  | EmptyString => [cur]
  | String c s' =>
      if Ascii.eqb c slash then cur :: split_slash EmptyString s'
      else split_slash (cur +:+ String c EmptyString) s'
  end.

(** [Path(p).name]: the last component, empty and [.] components being
    dropped when the path is parsed. *)
Definition path_name (p : string) : string :=
  let parts :=
    filter (fun c => c <> EmptyString /\ c <> String dot EmptyString)
           (split_slash EmptyString p) in
  List.last parts EmptyString.

(** [name.rfind('.')] *)
Fixpoint rfind_dot (i : nat) (acc : option nat) (s : string) : option nat :=
  match s with
  | EmptyString => acc
  | String c s' => rfind_dot (S i) (if Ascii.eqb c dot then Some i else acc) s'
  end.

(** [Path(p).stem]: the name without its last suffix; a leading or a
    trailing dot starts no suffix. *)
Definition path_stem (p : string) : string :=
  let name := path_name p in
  match rfind_dot O None name with
  | Some i =>
      if ((0 <? i) && (i <? String.length name - 1))%nat
      then String.substring 0 i name
      else name
  | None => name
  end.

(** *** Fixed-point formatting of floats: [format(x, '.2f')]

    A float is its IEEE value [spec_float]: a sign, a mantissa and a binary
    exponent.  The conversion is correctly rounded: the exact value times
    100 is rounded to the nearest integer, ties to even. *)

Definition round_half_even (n d : Z) : Z :=
  let q := n / d in
  let r := n mod d in
  if 2 * r <? d then q
  else if d <? 2 * r then q + 1
  else if Z.even q then q else q + 1.

(** [|x| * 100] rounded, for [|x| = m * 2^e]. *)
Definition hundredths (m : positive) (e : Z) : Z :=
  if 0 <=? e then Z.pos m * 2 ^ e * 100
  else round_half_even (Z.pos m * 100) (2 ^ (- e)).

Definition digit (n : Z) : ascii := ascii_of_nat (48 + Z.to_nat n).

Definition two_digits (n : Z) : string :=
  String (digit (n / 10)) (String (digit (n mod 10)) EmptyString).

Definition sign_str (s : bool) : string := if s then "-" else "".

Definition format_2f (x : spec_float) : string :=
  match x with
  | S754_nan => "nan"
  | S754_infinity s => sign_str s +:+ "inf"
  | S754_zero s => sign_str s +:+ "0.00"
  | S754_finite s m e =>
      let h := hundredths m e in
      sign_str s +:+ str_N (Z.to_N (h / 100)) +:+ "." +:+ two_digits (h mod 100)
  end.

End PyStr.

(** ** Python effects: exceptions, the world, collaborators *)
Module Py.

(** A raised exception.  [Exception] stands for an instance of the class
    [Exception] or of a subclass, which [except Exception] catches;
    [BaseException] for one outside it ([KeyboardInterrupt], [SystemExit]),
    which [except Exception] lets through. *)
Inductive exn : Type :=
| Exception (cls msg : string)
| BaseException (cls msg : string).

(** [str(e)] *)
Definition str_exn (e : exn) : string :=
  match e with
  | Exception _ msg => msg
  | BaseException _ msg => msg
  end.

Inductive result (A : Type) : Type :=
| Return (v : A)
| Raise (e : exn).
Arguments Return {A} v.
Arguments Raise {A} e.

(** *** Values exchanged with the collaborators *)

(** The options dictionary handed to [yt_dlp.YoutubeDL]; the key
    ['postprocessors'] is set only for audio downloads. *)
Record ydl_opts : Type := {
  outtmpl : string;
  format : string;
  postprocessors : option (list (list (string * string)))
}.

Definition info_dict : Type := list (string * string).

(** One element of [result['segments']]. *)
Record segment : Type := {
  seg_start : spec_float;
  seg_end : spec_float;
  seg_text : string
}.

(** The dictionary returned by [model.transcribe]. *)
Record transcription : Type := {
  text : string;
  segments : list segment
}.

(** Calls into the external libraries, as they are recorded in the trace. *)
Inductive call : Type :=
| YoutubeDL (opts : ydl_opts)
| extract_info (url : string) (download : bool)
| prepare_filename (info : info_dict)
| download (urls : list string)
| load_model (name : string)
| transcribe (model audio : string)
| pipeline (task model : string)
| summarizer (model text : string) (max_length min_length : Z) (do_sample : bool)
| ChatCompletion_create (model : string) (messages : list (string * string))
    (max_tokens : Z).

(** Operations on the file system that the environment may refuse. *)
Inductive fs_op : Type :=
| Mkdir (p : string)
| OpenRead (p : string)
| OpenWrite (p : string)
| FileWrite (p data : string).

(** The observable world: the text files by path, what was printed, and the
    collaborator calls made so far (oldest first). *)
Record World : Type := {
  files : gmap string string;
  stdout : list string;
  calls : list call
}.

(** A collaborator answers with a value or an exception and may change the
    files (a download stores media, a model is cached). *)
Definition ext (A : Type) : Type :=
  gmap string string -> result A * gmap string string.

(** What the stage functions do not control: disk faults, the date, which
    optional packages are installed, and the behaviour of the libraries. *)
Record Env : Type := {
  fs_fault : fs_op -> option exn;
  today : string;
  transformers_installed : bool;
  openai_installed : bool;
  yt_dlp_YoutubeDL : ydl_opts -> ext unit;
  ydl_extract_info : ydl_opts -> string -> bool -> ext info_dict;
  ydl_prepare_filename : ydl_opts -> info_dict -> ext string;
  ydl_download : ydl_opts -> list string -> ext Z;
  whisper_load_model : string -> ext string;
  model_transcribe : string -> string -> ext transcription;
  transformers_pipeline : string -> string -> ext string;
  summarizer_call : string -> string -> Z -> Z -> bool -> ext (list string);
  openai_ChatCompletion_create :
    string -> list (string * string) -> Z -> ext (list string)
}.

(** *** The monad of stage functions *)

Definition M (A : Type) : Type := World -> result A * World.

Definition ret {A : Type} (v : A) : M A := fun w => (Return v, w).

Definition raise {A : Type} (e : exn) : M A := fun w => (Raise e, w).

Definition bind {A B : Type} (m : M A) (k : A -> M B) : M B :=
  fun w =>
    match m w with
    | (Return v, w') => k v w'
    | (Raise e, w') => (Raise e, w')
    end.

(** [try: body except Exception as e: handler e] *)
Definition try_except {A : Type} (body : M A) (handler : exn -> M A) : M A :=
  fun w =>
    match body w with
    | (Raise (Exception cls msg), w') => handler (Exception cls msg) w'
    | other => other
    end.

(** A computation that lets no [Exception] reach its caller, whatever the
    world it starts in. *)
Definition no_Exception {A : Type} (m : M A) : Prop :=
  forall w cls msg, fst (m w) <> Raise (Exception cls msg).

Declare Scope py_scope.
Delimit Scope py_scope with py.
Notation "'let*' x ':=' c1 'in' c2" := (bind c1 (fun x => c2))
  (at level 10, x name, c1 at level 100, c2 at level 200) : py_scope.
Notation "c1 ';;' c2" := (bind c1 (fun _ => c2))
  (at level 100, right associativity) : py_scope.
Local Open Scope py_scope.

Fixpoint for_each {A : Type} (l : list A) (body : A -> M unit) : M unit :=
  match l with
  | [] => ret tt
  | x :: l' => body x ;; for_each l' body
  end.

(** [print(s)] *)
Definition print (s : string) : M unit :=
  fun w => (Return tt, {| files := files w; stdout := stdout w ++ [s];
                          calls := calls w |}).

Definition set_files (w : World) (fs : gmap string string) : World :=
  {| files := fs; stdout := stdout w; calls := calls w |}.

(** A call into a library: it is recorded, then the library answers. *)
Definition call_ext {A : Type} (c : call) (op : ext A) : M A :=
  fun w =>
    let (r, fs) := op (files w) in
    (r, {| files := fs; stdout := stdout w; calls := calls w ++ [c] |}).

Section FileSystem.
Context (env : Env).

Definition guard_fault (op : fs_op) : M unit :=
  match fs_fault env op with
  | Some e => raise e
  | None => ret tt
  end.

(** [Path(p).mkdir(parents=True, exist_ok=True)]; directories are not
    tracked, the call only succeeds or raises. *)
Definition mkdir (p : string) : M unit := guard_fault (Mkdir p).

(** [with open(p, 'r', encoding='utf-8') as f: f.read()]; for a file that
    does not exist [open] raises [FileNotFoundError], whose text ends with
    [repr(p)]. *)
Definition read_text (p : string) : M string :=
  guard_fault (OpenRead p) ;;
  fun w =>
    match files w !! p with
    | Some content => (Return content, w)
    | None =>
        (Raise (Exception "FileNotFoundError"
                  ("[Errno 2] No such file or directory: " +:+ PyStr.repr p)),
         w)
    end.

(** [open(p, 'w', encoding='utf-8')]: the file is created, or truncated. *)
Definition open_w (p : string) : M unit :=
  guard_fault (OpenWrite p) ;;
  fun w => (Return tt, set_files w (<[p := ""]> (files w))).

(** [f.write(data)] on the file opened at [p]; a write that raises has
    added nothing. *)
Definition f_write (p data : string) : M unit :=
  guard_fault (FileWrite p data) ;;
  fun w =>
    (Return tt,
     set_files w (<[p := default "" (files w !! p) +:+ data]> (files w))).

(** [with open(p, 'w', encoding='utf-8') as f: f.write(data)] *)
Definition write_text (p data : string) : M unit :=
  open_w p ;; f_write p data.

Definition fault_free : Prop := forall op, fs_fault env op = None.

(** The file at [p] can be opened for writing and written. *)
Definition writable (p : string) : Prop :=
  fs_fault env (OpenWrite p) = None
  /\ forall data, fs_fault env (FileWrite p data) = None.

End FileSystem.

End Py.

Import PyStr Py.
Local Open Scope py_scope.

(** ** [scripts/download_video.py] *)
Module DownloadVideo.
Section WithEnv.
Context (env : Env).

(** The options built for [yt_dlp.YoutubeDL]. *)
Definition ydl_options (output_dir : string) (audio_only : bool) : ydl_opts :=
  {| outtmpl := os_path_join output_dir "%(title)s.%(ext)s";
     format := if audio_only then "bestaudio/best" else "best[height<=720]";
     postprocessors :=
       if audio_only
       then Some [[("key", "FFmpegExtractAudio"); ("preferredcodec", "wav")]]
       else None |}.

Definition download_video (url output_dir : string) (audio_only : bool)
  : M (option string) :=
  mkdir env output_dir ;;
  let ydl_opts := ydl_options output_dir audio_only in
  try_except
    (call_ext (YoutubeDL ydl_opts) (yt_dlp_YoutubeDL env ydl_opts) ;;
     let* info := call_ext (extract_info url false)
                           (ydl_extract_info env ydl_opts url false) in
     let* filename := call_ext (prepare_filename info)
                               (ydl_prepare_filename env ydl_opts info) in
     call_ext (download [url]) (ydl_download env ydl_opts [url]) ;;
     print ("Successfully downloaded: " +:+ filename) ;;
     ret (Some filename))
    (fun e =>
       print ("Error downloading video: " +:+ str_exn e) ;;
       ret None).

End WithEnv.
End DownloadVideo.

(** ** [scripts/transcribe_audio.py] *)
Module TranscribeAudio.
Section WithEnv.
Context (env : Env).

(** The line written for one segment:
    [f"[{start_time:.2f} - {end_time:.2f}]: {text}\n"]. *)
Definition segment_line (sg : segment) : string :=
  "[" +:+ format_2f (seg_start sg) +:+ " - " +:+ format_2f (seg_end sg)
  +:+ "]: " +:+ seg_text sg +:+ nl.

Definition transcript_file_path (audio_file output_dir : string) : string :=
  os_path_join output_dir (path_stem audio_file +:+ "_transcript.txt").

Definition segments_file_path (audio_file output_dir : string) : string :=
  os_path_join output_dir (path_stem audio_file +:+ "_segments.txt").

Definition transcribe_audio (audio_file model_size output_dir : string)
  : M (option transcription) :=
  mkdir env output_dir ;;
  print ("Loading Whisper model: " +:+ model_size) ;;
  let* model := call_ext (load_model model_size)
                         (whisper_load_model env model_size) in
  try_except
    (print ("Transcribing: " +:+ audio_file) ;;
     let* result := call_ext (transcribe model audio_file)
                             (model_transcribe env model audio_file) in
     let transcript_file := transcript_file_path audio_file output_dir in
     write_text env transcript_file (text result) ;;
     let segments_file := segments_file_path audio_file output_dir in
     open_w env segments_file ;;
     for_each (segments result)
       (fun sg => f_write env segments_file (segment_line sg)) ;;
     print ("Transcription saved to: " +:+ transcript_file) ;;
     print ("Segments saved to: " +:+ segments_file) ;;
     ret (Some result))
    (fun e =>
       print ("Error transcribing audio: " +:+ str_exn e) ;;
       ret None).

End WithEnv.
End TranscribeAudio.

(** [if value:] on a string or [None]. *)
Definition truthy (v : option string) : bool :=
  match v with
  | Some s => negb (String.eqb s "")
  | None => false
  end.

(** A name bound by a guarded import: using it when the import failed
    raises [NameError]. *)
Definition imported {A : Type} (installed : bool) (name : string) (m : M A)
  : M A :=
  if installed then m
  else raise (Exception "NameError"
                ("name '" +:+ name +:+ "' is not defined")).

(** [choices[0]], [result[0]] *)
Definition first_item (l : list string) : M string :=
  match l with
  | x :: _ => ret x
  | [] => raise (Exception "IndexError" "list index out of range")
  end.

(** ** [scripts/summarize_text.py] *)
Module SummarizeText.
Section WithEnv.
Context (env : Env).

Definition TRANSFORMERS_AVAILABLE : bool := transformers_installed env.
Definition OPENAI_AVAILABLE : bool := openai_installed env.

Definition summarize_with_transformers (text model_name : string)
    (max_length : Z) : M (option string) :=
  try_except
    (let* summarizer :=
       imported TRANSFORMERS_AVAILABLE "pipeline"
         (call_ext (pipeline "summarization" model_name)
                   (transformers_pipeline env "summarization" model_name)) in
     let* result :=
       call_ext (Py.summarizer summarizer text max_length 30 false)
                (summarizer_call env summarizer text max_length 30 false) in
     let* summary_text := first_item result in
     ret (Some summary_text))
    (fun e =>
       print ("Error with transformers summarization: " +:+ str_exn e) ;;
       ret None).

Definition summarize_with_openai (text model : string) (max_tokens : Z)
  : M (option string) :=
  try_except
    (let messages :=
       [("system",
         "You are a helpful assistant that creates concise summaries.");
        ("user",
         "Please summarize the following text:" +:+ nl +:+ nl +:+ text)] in
     let* response :=
       imported OPENAI_AVAILABLE "openai"
         (call_ext (ChatCompletion_create model messages max_tokens)
            (openai_ChatCompletion_create env model messages max_tokens)) in
     let* content := first_item response in
     ret (Some (strip content)))
    (fun e =>
       print ("Error with OpenAI summarization: " +:+ str_exn e) ;;
       ret None).

Definition summary_file_path (input_file output_dir : string) : string :=
  os_path_join output_dir (path_stem input_file +:+ "_summary.txt").

(** The tail of [summarize_text], from [if summary:] on. *)
Definition write_summary (input_file output_dir : string)
    (summary : option string) : M (option string) :=
  match summary with
  | Some summary_text =>
      if truthy summary then
        let summary_file := summary_file_path input_file output_dir in
        write_text env summary_file summary_text ;;
        print ("Summary saved to: " +:+ summary_file) ;;
        ret summary
      else ret None
  | None => ret None
  end.

Definition summarize_text (input_file output_dir method : string)
    (max_length : Z) : M (option string) :=
  mkdir env output_dir ;;
  let* read :=
    try_except
      (let* content := read_text env input_file in ret (Some (strip content)))
      (fun e =>
         print ("Error reading input file: " +:+ str_exn e) ;;
         ret None) in
  match read with
  | None => ret None
  | Some text =>
      if String.eqb method "transformers" then
        if negb TRANSFORMERS_AVAILABLE then
          print "Error: transformers not installed. Run: pip install transformers torch" ;;
          ret None
        else
          let* summary :=
            summarize_with_transformers text "facebook/bart-large-cnn"
                                        max_length in
          write_summary input_file output_dir summary
      else if String.eqb method "openai" then
        if negb OPENAI_AVAILABLE then
          print "Error: openai not installed. Run: pip install openai" ;;
          ret None
        else
          let* summary := summarize_with_openai text "gpt-3.5-turbo" max_length in
          write_summary input_file output_dir summary
      else
        print ("Unknown summarization method: " +:+ method) ;;
        ret None
  end.

End WithEnv.
End SummarizeText.

(** ** [scripts/generate_blog.py] *)
Module GenerateBlog.
Section WithEnv.
Context (env : Env).

Definition OPENAI_AVAILABLE : bool := openai_installed env.

(** The lines of a text, each ended by a line feed. *)
Fixpoint unlines (ls : list string) : string :=
  match ls with
  | [] => ""
  | l :: ls' => l +:+ nl +:+ unlines ls'
  end.

Definition openai_prompt (summary title : string) : string :=
  unlines [
    "";
    "Create an engaging blog post from the following summary:";
    "";
    "Summary: " +:+ summary;
    "";
    "Please format the blog post with:";
    "- An engaging title (if not provided: " +:+ quote +:+ title +:+ quote +:+ ")";
    "- Introduction paragraph";
    "- Main content sections with subheadings";
    "- Conclusion";
    "- Use markdown formatting";
    "";
    "Make it informative, well-structured, and SEO-friendly."
  ].

Definition generate_blog_with_openai (summary title model : string)
    (max_tokens : Z) : M (option string) :=
  try_except
    (let prompt := openai_prompt summary title in
     let messages :=
       [("system",
         "You are a professional content writer who creates engaging blog posts.");
        ("user", prompt)] in
     let* response :=
       imported OPENAI_AVAILABLE "openai"
         (call_ext (ChatCompletion_create model messages max_tokens)
            (openai_ChatCompletion_create env model messages max_tokens)) in
     let* content := first_item response in
     ret (Some (strip content)))
    (fun e =>
       print ("Error with OpenAI blog generation: " +:+ str_exn e) ;;
       ret None).

(** [datetime.now().strftime("%Y-%m-%d")] *)
Definition now_strftime : M string := ret (today env).

Definition template_text (title date_str summary : string) : string :=
  unlines [
    "---";
    "title: " +:+ quote +:+ title +:+ quote;
    "date: " +:+ date_str;
    "tags: [video-summary, content]";
    "author: AI Content Generator";
    "---";
    "";
    "# " +:+ title;
    "";
    "*Published: " +:+ date_str +:+ "*";
    "";
    "## Overview";
    "";
    "This blog post is generated from a video summary, providing key insights and information in an easily digestible format.";
    "";
    "## Summary";
    "";
    summary;
    "";
    "## Key Points";
    "";
    "- Main topics covered in the video";
    "- Important insights and takeaways";
    "- Actionable information for readers";
    "";
    "## Conclusion";
    "";
    "This summary provides a comprehensive overview of the video content, making it accessible for those who prefer reading over watching.";
    "";
    "---";
    "";
    "*This content was automatically generated from video transcription and summarization.*"
  ].

(** The text [generate_blog_template] builds once the date is read. *)
Definition render_template (date_str summary title video_url : string)
  : string :=
  let title := if String.eqb title "" then "Video Summary Blog Post" else title in
  let template := template_text title date_str summary in
  if negb (String.eqb video_url "")
  then template +:+ nl +:+ nl +:+ "**Original Video:** [" +:+ video_url
       +:+ "](" +:+ video_url +:+ ")"
  else template.

Definition generate_blog_template (summary title video_url : string)
  : M string :=
  let* date_str := now_strftime in
  ret (render_template date_str summary title video_url).

(** The path of the blog file, from the input file and the title argument. *)
Definition blog_file_path (input_file output_dir title : string) : string :=
  let base_name := replace "_summary" "" (path_stem input_file) in
  let title :=
    if String.eqb title "" then PyStr.title (replace "_" " " base_name)
    else title in
  let safe_title := replace "/" "_" (replace " " "_" (lower title)) in
  os_path_join output_dir (safe_title +:+ "_blog.md").

(** The tail of [generate_blog], from [if blog_content:] on. *)
Definition write_blog (input_file output_dir title : string)
    (blog_content : option string) : M (option string) :=
  match blog_content with
  | Some content =>
      if truthy blog_content then
        let blog_file := blog_file_path input_file output_dir title in
        write_text env blog_file content ;;
        print ("Blog post saved to: " +:+ blog_file) ;;
        ret blog_content
      else ret None
  | None => ret None
  end.

Definition generate_blog (input_file output_dir title method video_url : string)
  : M (option string) :=
  mkdir env output_dir ;;
  let* read :=
    try_except
      (let* content := read_text env input_file in ret (Some (strip content)))
      (fun e =>
         print ("Error reading input file: " +:+ str_exn e) ;;
         ret None) in
  match read with
  | None => ret None
  | Some summary =>
      if String.eqb method "openai" then
        if negb OPENAI_AVAILABLE then
          print "Error: openai not installed. Run: pip install openai" ;;
          ret None
        else
          let* blog_content :=
            generate_blog_with_openai summary title "gpt-3.5-turbo" 1000 in
          write_blog input_file output_dir title blog_content
      else
        let* blog_content := generate_blog_template summary title video_url in
        write_blog input_file output_dir title (Some blog_content)
  end.

End WithEnv.
End GenerateBlog.

(** ** [scripts/create_podcast.py]: the three functions have the body
    [pass]. *)
Module CreatePodcast.

Definition create_podcast (text_content : string)
    (output_path voice_model : option string) : M (option string) :=
  ret None.

Definition process_tts_audio (audio_data format : string) : M (option string) :=
  ret None.

Definition generate_podcast_metadata (title description author : string)
  : M (option (list (string * string))) :=
  ret None.

End CreatePodcast.

(** ** [scripts/process_video.py] *)
Module ProcessVideo.

(** Modelled from the spec: the data model of the manifest (section 3),
    which the repository declares nowhere.  The stages in pipeline order,
    the failure kinds, the artifact record and the four outcomes. *)
Inductive Stage : Type :=
| Download | Transcribe | Summarize | BlogGen | PodcastGen.

Inductive FailureKind : Type :=
| InvalidInput | UnsupportedScheme | NetworkError | NotFound | ModelLoadError
| DecodeError | BackendUnavailable | QuotaExceeded | SynthesisError | Timeout
| UpstreamFailed.

Record Artifact : Type := {
  stage : Stage;
  path : string;
  produced_at : option Z;
  content_hash : string
}.

Inductive StageOutcome : Type :=
| Success (a : Artifact)
| Skipped (a : Artifact)
| Failed (kind : FailureKind) (message : string)
| NotAttempted.

Definition RunManifest : Type := list (Stage * StageOutcome).

(** The three functions below have the body [pass]: they return [None]. *)
Definition process_video (video_url : string) (output_dir : option string)
    (config : option (list (string * string))) : M (option RunManifest) :=
  ret None.

Definition validate_video_url (url : string) : M (option bool) :=
  ret None.

Definition setup_output_directories (base_dir : string)
  : M (option (list (string * string))) :=
  ret None.

End ProcessVideo.

(** ** The artifact store of the specification *)
Module ArtifactStore.


(** The layout the specification states for a persisted artifact:
    [<output_root>/<stage_name>/<source_id>.<ext>]. *)
Definition layout_path (output_root stage_name source_id ext : string)
  : string :=
  os_path_join (os_path_join output_root stage_name)
               (source_id +:+ "." +:+ ext).

End ArtifactStore.

(** ** Concrete environments and worlds *)
Module Scenario.

(** A collaborator call that returns [v] and leaves the files alone. *)
Definition answers {A : Type} (v : A) : ext A := fun fs => (Return v, fs).

(** A collaborator call that raises [e]. *)
Definition fails {A : Type} (e : exn) : ext A := fun fs => (Raise e, fs).

Definition talk : transcription :=
  {| text := " Hello world. Bye.";
     segments :=
       [ {| seg_start := S754_zero false;
            seg_end := S754_finite false 5 (-1);
            seg_text := " Hello world." |};
         {| seg_start := S754_finite false 5 (-1);
            seg_end := S754_finite false 25 (-3);
            seg_text := " Bye." |} ] |}.

(** Every library is installed and answers. *)
Definition env_ok : Env :=
  {| fs_fault := fun _ => None;
     today := "2024-05-17";
     transformers_installed := true;
     openai_installed := true;
     yt_dlp_YoutubeDL := fun _ => answers tt;
     ydl_extract_info := fun _ url _ => answers [("title", "talk"); ("ext", "mp4")];
     ydl_prepare_filename := fun opts _ => answers "./downloads/talk.mp4";
     ydl_download := fun _ _ => answers 0;
     whisper_load_model := fun name => answers name;
     model_transcribe := fun _ _ => answers talk;
     transformers_pipeline := fun _ model => answers model;
     summarizer_call := fun _ _ _ _ _ => answers ["A greeting and a farewell."];
     openai_ChatCompletion_create := fun _ _ _ => answers [" A post. "] |}.

(** As [env_ok], but openai is not installed and its API is unreachable. *)
Definition env_no_openai : Env :=
  {| fs_fault := fs_fault env_ok;
     today := today env_ok;
     transformers_installed := true;
     openai_installed := false;
     yt_dlp_YoutubeDL := yt_dlp_YoutubeDL env_ok;
     ydl_extract_info := ydl_extract_info env_ok;
     ydl_prepare_filename := ydl_prepare_filename env_ok;
     ydl_download := ydl_download env_ok;
     whisper_load_model := whisper_load_model env_ok;
     model_transcribe := model_transcribe env_ok;
     transformers_pipeline := transformers_pipeline env_ok;
     summarizer_call := summarizer_call env_ok;
     openai_ChatCompletion_create :=
       fun _ _ _ => fails (Exception "APIConnectionError" "Connection error.") |}.

(** As [env_ok], but yt_dlp rejects the URL it is given. *)
Definition env_unsupported_url : Env :=
  {| fs_fault := fs_fault env_ok;
     today := today env_ok;
     transformers_installed := true;
     openai_installed := true;
     yt_dlp_YoutubeDL := yt_dlp_YoutubeDL env_ok;
     ydl_extract_info :=
       fun _ url _ => fails (Exception "DownloadError" ("Unsupported URL: " +:+ url));
     ydl_prepare_filename := ydl_prepare_filename env_ok;
     ydl_download := ydl_download env_ok;
     whisper_load_model := whisper_load_model env_ok;
     model_transcribe := model_transcribe env_ok;
     transformers_pipeline := transformers_pipeline env_ok;
     summarizer_call := summarizer_call env_ok;
     openai_ChatCompletion_create := openai_ChatCompletion_create env_ok |}.

(** As [env_ok], but whisper cannot load the model and cannot decode. *)
Definition env_whisper_down : Env :=
  {| fs_fault := fs_fault env_ok;
     today := today env_ok;
     transformers_installed := true;
     openai_installed := true;
     yt_dlp_YoutubeDL := yt_dlp_YoutubeDL env_ok;
     ydl_extract_info := ydl_extract_info env_ok;
     ydl_prepare_filename := ydl_prepare_filename env_ok;
     ydl_download := ydl_download env_ok;
     whisper_load_model :=
       fun name => fails (Exception "RuntimeError" ("Model " +:+ name +:+ " not found"));
     model_transcribe :=
       fun _ _ => fails (Exception "RuntimeError" "Failed to load audio");
     transformers_pipeline := transformers_pipeline env_ok;
     summarizer_call := summarizer_call env_ok;
     openai_ChatCompletion_create := openai_ChatCompletion_create env_ok |}.

Definition empty_world : World := {| files := ∅; stdout := []; calls := [] |}.

(** A world that holds a summary file. *)
Definition summary_world : World :=
  {| files := {[ "summaries/abc123_summary.txt" := "  A greeting and a farewell." ]};
     stdout := [];
     calls := [] |}.

End Scenario.

(** ** Shapes of the written text *)
Module Shape.

Definition is_digit (c : ascii) : bool :=
  let n := nat_of_ascii c in ((48 <=? n) && (n <=? 57))%nat.

Fixpoint all_digits (s : string) : bool :=
  match s with
  | EmptyString => true
  | String c s' => is_digit c && all_digits s'
  end.

(** Digits, at least one, then a point, then exactly two digits;
    [seen] tells that a digit was read. *)
Fixpoint digits_point_2 (seen : bool) (s : string) : bool :=
  match s with
  | EmptyString => false
  | String c s' =>
      if Ascii.eqb c dot then
        seen && match s' with
                | String d1 (String d2 EmptyString) => is_digit d1 && is_digit d2
                | _ => false
                end
      else is_digit c && digits_point_2 true s'
  end.

(** A decimal numeral with exactly two decimal places, with or without a
    minus sign: [12.50], [-0.00]. *)
Definition is_fixed2 (s : string) : bool :=
  match s with
  | String c s' =>
      if Ascii.eqb c (ascii_of_nat 45) then digits_point_2 false s'
      else digits_point_2 false s
  | EmptyString => false
  end.

(** A float that is a number: not [nan], not an infinity. *)
Definition is_finite (x : spec_float) : bool :=
  match x with
  | S754_zero _ | S754_finite _ _ _ => true
  | S754_infinity _ | S754_nan => false
  end.

Definition finite_times (sg : segment) : bool :=
  is_finite (seg_start sg) && is_finite (seg_end sg).

Definition concat_lines (ls : list string) : string :=
  fold_right String.append "" ls.

Definition is_nl (c : ascii) : bool := Ascii.eqb c (ascii_of_nat 10).

Fixpoint contains_nl (s : string) : bool :=
  match s with
  | EmptyString => false
  | String c s' => is_nl c || contains_nl s'
  end.

(** The lines of a text, as a reader of the file gets them: each line
    keeps its line feed; [cur] is the line being read. *)
Fixpoint lines_from (cur : string) (s : string) : list string :=
  match s with
  | EmptyString => if String.eqb cur "" then [] else [cur]
  | String c s' =>
      if is_nl c then (cur +:+ String c "") :: lines_from "" s'
      else lines_from (cur +:+ String c "") s'
  end.

Definition file_lines (s : string) : list string := lines_from "" s.

(** A segment whose timestamps are finite and whose text is one line. *)
Definition plain_segment (sg : segment) : bool :=
  finite_times sg && negb (contains_nl (seg_text sg)).

(** *** The number a two-decimal numeral denotes *)

(** The text before the first point and the text after it. *)
Fixpoint split_point (s : string) : option (string * string) :=
  match s with
  | EmptyString => None
  | String c s' =>
      if Ascii.eqb c dot then Some (EmptyString, s')
      else match split_point s' with
           | Some (a, b) => Some (String c a, b)
           | None => None
           end
  end.

(** A numeral without its minus sign, and whether it had one. *)
Definition split_sign (s : string) : bool * string :=
  match s with
  | String c s' => if Ascii.eqb c (ascii_of_nat 45) then (true, s') else (false, s)
  | EmptyString => (false, EmptyString)
  end.

(** What a numeral with two decimal places denotes: its sign and its
    absolute value counted in hundredths; [12.50] denotes 1250 hundredths.
    Nothing for a text that is not such a numeral. *)
Definition fixed2_value (s : string) : option (bool * Z) :=
  if is_fixed2 s then
    let (neg, body) := split_sign s in
    match split_point body with
    | Some (ip, fp) =>
        match NilZero.uint_of_string ip, NilZero.uint_of_string fp with
        | Some u, Some v =>
            Some (neg, Z.of_N (N.of_uint u) * 100 + Z.of_N (N.of_uint v))
        | _, _ => None
        end
    | None => None
    end
  else None.

Definition float_sign (x : spec_float) : bool :=
  match x with
  | S754_zero s | S754_infinity s | S754_finite s _ _ => s
  | S754_nan => false
  end.

(** [h] hundredths is [|x|] rounded to a nearest hundredth: for
    [|x| = m * 2^e], the exact value when [e] is not negative, and otherwise
    an integer within one half of [m * 100 / 2^(-e)]. *)
Definition nearest_hundredths (x : spec_float) (h : Z) : Prop :=
  match x with
  | S754_zero _ => h = 0
  | S754_finite _ m e =>
      if 0 <=? e then h = Z.pos m * 2 ^ e * 100
      else Z.abs (2 * (Z.pos m * 100) - 2 * 2 ^ (- e) * h) <= 2 ^ (- e)
  | S754_infinity _ | S754_nan => False
  end.

(** The numeral [a] is the number [x] to two decimal places. *)
Definition two_decimals_of (x : spec_float) (a : string) : Prop :=
  exists h : Z,
    fixed2_value a = Some (float_sign x, h) /\ nearest_hundredths x h.

(** The text [a] stands for the timestamp [x]: the number to two decimal
    places, or the name of what is not a number. *)
Definition prints_as (x : spec_float) (a : string) : Prop :=
  match x with
  | S754_nan => a = "nan"
  | S754_infinity s => a = (if s then "-inf" else "inf")
  | S754_zero _ | S754_finite _ _ _ => two_decimals_of x a
  end.

(** The record of a segment in the segments file: [[start - end]: text]
    and a line feed, where start and end stand for the timestamps of the
    segment. *)
Definition segment_record (sg : segment) (line : string) : Prop :=
  exists a b : string,
    line = "[" +:+ a +:+ " - " +:+ b +:+ "]: " +:+ seg_text sg +:+ nl
    /\ prints_as (seg_start sg) a /\ prints_as (seg_end sg) b.

End Shape.

(** ** Command lines: the [main] of the stage scripts

    [argparse] is left out: a [main] is given the parsed arguments. *)
Module PySys.

(** [sys.exit(code)] raises [SystemExit]. *)
Definition sys_exit {A : Type} (code : N) : M A :=
  raise (BaseException "SystemExit" (str_N code)).

(** [os.path.exists(p)], for the files the world holds; directories are not
    tracked. *)
Definition os_path_exists (p : string) : M bool :=
  fun w =>
    (Return match files w !! p with Some _ => true | None => false end, w).

(** [not result] on a dictionary or [None] (the dictionary of a
    transcription has its two keys). *)
Definition falsy_dict {A : Type} (result : option A) : bool :=
  match result with
  | Some _ => false
  | None => true
  end.

End PySys.

(** [main] of [transcribe_audio.py], after [parser.parse_args()]. *)
Module TranscribeAudioCli.
Section WithEnv.
Context (env : Env).

Definition main (audio_file model output : string) : M unit :=
  let* found := PySys.os_path_exists audio_file in
  if negb found then
    print ("Error: Audio file not found: " +:+ audio_file) ;;
    PySys.sys_exit 1
  else
    let* result :=
      TranscribeAudio.transcribe_audio env audio_file model output in
    if PySys.falsy_dict result then PySys.sys_exit 1 else ret tt.

End WithEnv.
End TranscribeAudioCli.

(** [main] of [summarize_text.py], after [parser.parse_args()]. *)
Module SummarizeTextCli.
Section WithEnv.
Context (env : Env).

Definition main (input_file method output : string) (max_length : Z)
  : M unit :=
  let* found := PySys.os_path_exists input_file in
  if negb found then
    print ("Error: Input file not found: " +:+ input_file) ;;
    PySys.sys_exit 1
  else
    let* result :=
      SummarizeText.summarize_text env input_file output method max_length in
    if negb (truthy result) then PySys.sys_exit 1 else ret tt.

End WithEnv.
End SummarizeTextCli.

(** [main] of [generate_blog.py], after [parser.parse_args()]. *)
Module GenerateBlogCli.
Section WithEnv.
Context (env : Env).

Definition main (input_file title method output video_url : string)
  : M unit :=
  let* found := PySys.os_path_exists input_file in
  if negb found then
    print ("Error: Input file not found: " +:+ input_file) ;;
    PySys.sys_exit 1
  else
    let* result :=
      GenerateBlog.generate_blog env input_file output title method
        video_url in
    if negb (truthy result) then PySys.sys_exit 1 else ret tt.

End WithEnv.
End GenerateBlogCli.

(** ** Further environments *)
Module Scenario2.

(** As [Scenario.env_ok], but the openai API cannot be reached and the
    local summariser fails to load. *)
Definition env_backends_down : Env :=
  {| fs_fault := fs_fault Scenario.env_ok;
     today := today Scenario.env_ok;
     transformers_installed := true;
     openai_installed := true;
     yt_dlp_YoutubeDL := yt_dlp_YoutubeDL Scenario.env_ok;
     ydl_extract_info := ydl_extract_info Scenario.env_ok;
     ydl_prepare_filename := ydl_prepare_filename Scenario.env_ok;
     ydl_download :=
       fun _ _ => Scenario.fails (Exception "DownloadError" "HTTP Error 403");
     whisper_load_model := whisper_load_model Scenario.env_ok;
     model_transcribe :=
       fun _ _ => Scenario.fails (Exception "RuntimeError" "Failed to load audio");
     transformers_pipeline :=
       fun _ _ => Scenario.fails (Exception "OSError" "model not found");
     summarizer_call := summarizer_call Scenario.env_ok;
     openai_ChatCompletion_create :=
       fun _ _ _ =>
         Scenario.fails (Exception "APIConnectionError" "Connection error.") |}.

(** As [Scenario.env_ok], but the segments file cannot be opened. *)
Definition env_segments_locked : Env :=
  {| fs_fault :=
       fun op =>
         match op with
         | OpenWrite p =>
             if String.eqb p "./transcriptions/talk_segments.txt"
             then Some (Exception "PermissionError" "[Errno 13] Permission denied")
             else None
         | _ => None
         end;
     today := today Scenario.env_ok;
     transformers_installed := true;
     openai_installed := true;
     yt_dlp_YoutubeDL := yt_dlp_YoutubeDL Scenario.env_ok;
     ydl_extract_info := ydl_extract_info Scenario.env_ok;
     ydl_prepare_filename := ydl_prepare_filename Scenario.env_ok;
     ydl_download := ydl_download Scenario.env_ok;
     whisper_load_model := whisper_load_model Scenario.env_ok;
     model_transcribe := model_transcribe Scenario.env_ok;
     transformers_pipeline := transformers_pipeline Scenario.env_ok;
     summarizer_call := summarizer_call Scenario.env_ok;
     openai_ChatCompletion_create :=
       openai_ChatCompletion_create Scenario.env_ok |}.

(** As [Scenario.env_ok], but the libraries answer with empty lists. *)
Definition env_empty_answers : Env :=
  {| fs_fault := fs_fault Scenario.env_ok;
     today := today Scenario.env_ok;
     transformers_installed := true;
     openai_installed := true;
     yt_dlp_YoutubeDL := yt_dlp_YoutubeDL Scenario.env_ok;
     ydl_extract_info := ydl_extract_info Scenario.env_ok;
     ydl_prepare_filename := ydl_prepare_filename Scenario.env_ok;
     ydl_download := ydl_download Scenario.env_ok;
     whisper_load_model := whisper_load_model Scenario.env_ok;
     model_transcribe := model_transcribe Scenario.env_ok;
     transformers_pipeline := transformers_pipeline Scenario.env_ok;
     summarizer_call := fun _ _ _ _ _ => Scenario.answers [];
     openai_ChatCompletion_create := fun _ _ _ => Scenario.answers [] |}.

(** As [Scenario.env_ok], but neither transformers nor openai is
    installed. *)
Definition env_nothing_installed : Env :=
  {| fs_fault := fs_fault Scenario.env_ok;
     today := today Scenario.env_ok;
     transformers_installed := false;
     openai_installed := false;
     yt_dlp_YoutubeDL := yt_dlp_YoutubeDL Scenario.env_ok;
     ydl_extract_info := ydl_extract_info Scenario.env_ok;
     ydl_prepare_filename := ydl_prepare_filename Scenario.env_ok;
     ydl_download := ydl_download Scenario.env_ok;
     whisper_load_model := whisper_load_model Scenario.env_ok;
     model_transcribe := model_transcribe Scenario.env_ok;
     transformers_pipeline := transformers_pipeline Scenario.env_ok;
     summarizer_call := summarizer_call Scenario.env_ok;
     openai_ChatCompletion_create :=
       openai_ChatCompletion_create Scenario.env_ok |}.

(** As [Scenario.env_ok], a day later. *)
Definition env_next_day : Env :=
  {| fs_fault := fs_fault Scenario.env_ok;
     today := "2024-05-18";
     transformers_installed := true;
     openai_installed := true;
     yt_dlp_YoutubeDL := yt_dlp_YoutubeDL Scenario.env_ok;
     ydl_extract_info := ydl_extract_info Scenario.env_ok;
     ydl_prepare_filename := ydl_prepare_filename Scenario.env_ok;
     ydl_download := ydl_download Scenario.env_ok;
     whisper_load_model := whisper_load_model Scenario.env_ok;
     model_transcribe := model_transcribe Scenario.env_ok;
     transformers_pipeline := transformers_pipeline Scenario.env_ok;
     summarizer_call := summarizer_call Scenario.env_ok;
     openai_ChatCompletion_create :=
       openai_ChatCompletion_create Scenario.env_ok |}.




(** A transcription whose first segment starts at a time that is not a
    number and whose second segment has a text of two lines. *)
Definition garbled : transcription :=
  {| text := " Hello wor" +:+ nl +:+ "ld";
     segments :=
       [ {| seg_start := S754_nan;
            seg_end := S754_finite false 3 (-1);
            seg_text := " Hello" |};
         {| seg_start := S754_finite false 3 (-1);
            seg_end := S754_finite false 1 1;
            seg_text := " wor" +:+ nl +:+ "ld" |} ] |}.

(** As [Scenario.env_ok], but whisper answers with [garbled]. *)
Definition env_garbled : Env :=
  {| fs_fault :=
       fs_fault Scenario.env_ok;
     today := today Scenario.env_ok;
     transformers_installed := true;
     openai_installed := true;
     yt_dlp_YoutubeDL := yt_dlp_YoutubeDL Scenario.env_ok;
     ydl_extract_info := ydl_extract_info Scenario.env_ok;
     ydl_prepare_filename := ydl_prepare_filename Scenario.env_ok;
     ydl_download := ydl_download Scenario.env_ok;
     whisper_load_model := whisper_load_model Scenario.env_ok;
     model_transcribe := fun _ _ => Scenario.answers garbled;
     transformers_pipeline := transformers_pipeline Scenario.env_ok;
     summarizer_call := summarizer_call Scenario.env_ok;
     openai_ChatCompletion_create :=
       openai_ChatCompletion_create Scenario.env_ok |}.

(** A world that holds a downloaded audio file. *)
Definition audio_world : World :=
  {| files := {[ "downloads/talk.wav" := "RIFF" ]};
     stdout := [];
     calls := [] |}.

End Scenario2.

(** ** Characters of a string *)
Module Chars.

Fixpoint has_char (c : ascii) (s : string) : bool :=
  match s with
  | EmptyString => false
  | String d s' => Ascii.eqb c d || has_char c s'
  end.

(** What [os.path.join] puts between a directory and a relative name. *)
Definition separator (dir : string) : string :=
  if (String.eqb dir "" || endswith_char slash dir)%bool then ""
  else String slash "".

End Chars.

(** ** Reading a line of the segments file *)
Module SegmentsFile.

(** The text before the first [c] and the text after it. *)
Fixpoint split_at (c : ascii) (s : string) : option (string * string) :=
  match s with
  | EmptyString => None
  | String d s' =>
      if Ascii.eqb c d then Some (EmptyString, s')
      else match split_at c s' with
           | Some (before, after) => Some (String d before, after)
           | None => None
           end
  end.

Fixpoint strip_prefix (p s : string) : option string :=
  match p, s with
  | EmptyString, _ => Some s
  | String a p', String b s' =>
      if Ascii.eqb a b then strip_prefix p' s' else None
  | String _ _, EmptyString => None
  end.

(** The line without the line feed that ends it. *)
Fixpoint drop_line_feed (s : string) : option string :=
  match s with
  | EmptyString => None
  | String c EmptyString => if Shape.is_nl c then Some EmptyString else None
  | String c s' =>
      match drop_line_feed s' with
      | Some t => Some (String c t)
      | None => None
      end
  end.

(** A reader of one line [[start - end]: text]: the start numeral is read
    up to the first space, the end numeral up to the first closing bracket,
    the text is the rest of the line. *)
Definition read_line (line : string) : option (string * string * string) :=
  match strip_prefix "[" line with
  | None => None
  | Some r0 =>
      match split_at " " r0 with
      | None => None
      | Some (a, r1) =>
          match strip_prefix "- " r1 with
          | None => None
          | Some r2 =>
              match split_at "]" r2 with
              | None => None
              | Some (b, r3) =>
                  match strip_prefix ": " r3 with
                  | None => None
                  | Some r4 =>
                      match drop_line_feed r4 with
                      | None => None
                      | Some t => Some (a, b, t)
                      end
                  end
              end
          end
      end
  end.

End SegmentsFile.

(** * Properties *)

(** ** Appending strings *)
Lemma app_cons (c : ascii) (s t : string) :
  String c s +:+ t = String c (s +:+ t).
Proof. reflexivity. Qed.

Lemma app_empty_r (s : string) : s +:+ "" = s.
Proof.
  induction s as [| c s IH]; [reflexivity | now rewrite app_cons, IH].
Qed.

Lemma app_assoc_str (a b c : string) : (a +:+ b) +:+ c = a +:+ (b +:+ c).
Proof.
  induction a as [| x a IH]; [reflexivity | now rewrite !app_cons, IH].
Qed.

(** ** Running the monad *)
Section MonadFacts.
Context {A B : Type}.

Lemma bind_Return (m : M A) (k : A -> M B) w v w' :
  m w = (Return v, w') -> bind m k w = k v w'.
Proof. intros H. unfold bind. now rewrite H. Qed.

Lemma bind_Raise (m : M A) (k : A -> M B) w e w' :
  m w = (Raise e, w') -> bind m k w = (Raise e, w').
Proof. intros H. unfold bind. now rewrite H. Qed.

Lemma try_except_Return (body : M A) handler w v w' :
  body w = (Return v, w') -> try_except body handler w = (Return v, w').
Proof. intros H. unfold try_except. now rewrite H. Qed.

Lemma try_except_caught (body : M A) handler w cls msg w' :
  body w = (Raise (Exception cls msg), w') ->
  try_except body handler w = handler (Exception cls msg) w'.
Proof. intros H. unfold try_except. now rewrite H. Qed.

Lemma try_except_uncaught (body : M A) handler w cls msg w' :
  body w = (Raise (BaseException cls msg), w') ->
  try_except body handler w = (Raise (BaseException cls msg), w').
Proof. intros H. unfold try_except. now rewrite H. Qed.

Lemma call_ext_run (c : call) (op : ext A) w r fs :
  op (files w) = (r, fs) ->
  call_ext c op w
  = (r, {| files := fs; stdout := stdout w; calls := calls w ++ [c] |}).
Proof. intros H. unfold call_ext. now rewrite H. Qed.

End MonadFacts.

(** ** Computations that let no [Exception] through *)
Section NoException.
Context {A B : Type}.

Lemma no_Exception_ret (v : A) : no_Exception (ret v).
Proof. intros w cls msg. discriminate. Qed.

Lemma no_Exception_print s : no_Exception (print s).
Proof. intros w cls msg. discriminate. Qed.

Lemma no_Exception_bind (m : M A) (k : A -> M B) :
  no_Exception m -> (forall v, no_Exception (k v)) -> no_Exception (bind m k).
Proof.
  intros Hm Hk w cls msg. unfold bind.
  specialize (Hm w). destruct (m w) as [[v | e] w1]; simpl in *.
  - apply Hk.
  - intros Heq. apply (Hm cls msg). now injection Heq as ->.
Qed.

(** A handler that prints and returns stops every [Exception]: the guarded
    block never lets one through. *)
Lemma no_Exception_try_except (body : M A) (line : exn -> string) (v : A) :
  no_Exception (try_except body (fun e => print (line e) ;; ret v)).
Proof.
  intros w cls msg. unfold try_except.
  destruct (body w) as [[x | [c m | c m]] w1]; simpl; discriminate.
Qed.

End NoException.

Create HintDb no_exn.
#[export] Hint Resolve no_Exception_ret no_Exception_print
  no_Exception_try_except : no_exn.

(** The world after the handler of a caught [Exception] has printed. *)
Lemma try_except_caught_print {A : Type} (body : M A) (line : exn -> string)
    (v : A) w cls msg w' :
  body w = (Raise (Exception cls msg), w') ->
  try_except body (fun e => print (line e) ;; ret v) w
  = (Return v,
     {| files := files w';
        stdout := stdout w' ++ [line (Exception cls msg)];
        calls := calls w' |}).
Proof. intros H. unfold try_except. now rewrite H. Qed.

Section FileFacts.
Context (env : Env).

Lemma guard_fault_ok op w :
  fs_fault env op = None -> guard_fault env op w = (Return tt, w).
Proof. intros H. unfold guard_fault. now rewrite H. Qed.

Lemma mkdir_ok p w :
  fs_fault env (Mkdir p) = None -> mkdir env p w = (Return tt, w).
Proof. apply guard_fault_ok. Qed.

Lemma read_text_ok p w content :
  fs_fault env (OpenRead p) = None ->
  files w !! p = Some content ->
  read_text env p w = (Return content, w).
Proof.
  intros Hf Hp. unfold read_text.
  rewrite (bind_Return _ _ _ _ _ (guard_fault_ok _ _ Hf)). now rewrite Hp.
Qed.

Lemma open_w_ok p w :
  fs_fault env (OpenWrite p) = None ->
  open_w env p w = (Return tt, set_files w (<[p := ""]> (files w))).
Proof.
  intros Hf. unfold open_w.
  now rewrite (bind_Return _ _ _ _ _ (guard_fault_ok _ _ Hf)).
Qed.

Lemma f_write_ok p data w :
  fs_fault env (FileWrite p data) = None ->
  f_write env p data w
  = (Return tt,
     set_files w (<[p := default "" (files w !! p) +:+ data]> (files w))).
Proof.
  intros Hf. unfold f_write.
  now rewrite (bind_Return _ _ _ _ _ (guard_fault_ok _ _ Hf)).
Qed.

Lemma no_Exception_guard_fault op :
  fs_fault env op = None -> no_Exception (guard_fault env op).
Proof.
  intros H w cls msg. rewrite guard_fault_ok by exact H. discriminate.
Qed.

Lemma no_Exception_mkdir p :
  fs_fault env (Mkdir p) = None -> no_Exception (mkdir env p).
Proof. apply no_Exception_guard_fault. Qed.

Lemma no_Exception_write_text_at p data :
  writable env p -> no_Exception (write_text env p data).
Proof.
  intros [Ho Hw]. unfold write_text, open_w, f_write.
  repeat (apply no_Exception_bind; [| intros []]);
    try (apply no_Exception_guard_fault; (exact Ho || apply Hw));
    intros w cls msg; discriminate.
Qed.

Lemma fault_free_writable p : fault_free env -> writable env p.
Proof. intros Hff. split; [apply Hff | intros data; apply Hff]. Qed.

Lemma no_Exception_write_text p data :
  fault_free env -> no_Exception (write_text env p data).
Proof. intros Hff. now apply no_Exception_write_text_at, fault_free_writable. Qed.

Lemma write_text_ok p data w :
  fs_fault env (OpenWrite p) = None ->
  fs_fault env (FileWrite p data) = None ->
  write_text env p data w
  = (Return tt, set_files w (<[p := data]> (files w))).
Proof.
  intros Ho Hw. unfold write_text.
  rewrite (bind_Return _ _ _ _ _ (open_w_ok _ _ Ho)).
  rewrite f_write_ok by exact Hw.
  unfold set_files; simpl. rewrite lookup_insert_eq. simpl.
  now rewrite insert_insert_eq.
Qed.

End FileFacts.

(** ** The orchestrator: [process_video] and [validate_video_url] *)

(** C1. The run operation never raises, but it returns no manifest either:
    for every URL, output directory, configuration and world,
    [process_video] returns [None] and leaves the world as it was, so no
    stage failure is recorded anywhere. *)
Theorem process_video_returns_no_manifest :
  forall video_url output_dir config w,
    ProcessVideo.process_video video_url output_dir config w
    = (Return None, w).
Proof. reflexivity. Qed.

(** The stage functions hold no cache: a second transcription of the same
    file calls the model again. *)
Example transcribe_audio_twice_calls_twice :
  let first :=
    TranscribeAudio.transcribe_audio Scenario.env_ok "downloads/talk.wav"
      "base" "./transcriptions" Scenario.empty_world in
  calls (snd (TranscribeAudio.transcribe_audio Scenario.env_ok
                "downloads/talk.wav" "base" "./transcriptions" (snd first)))
  = [load_model "base"; transcribe "base" "downloads/talk.wav";
     load_model "base"; transcribe "base" "downloads/talk.wav"].
Proof. reflexivity. Qed.

(** C5. [validate_video_url] returns [None] for every URL, a valid YouTube
    URL included, never [True] or [False]; and [process_video] on the
    malformed reference [not-a-url] returns [None]: it neither raises nor
    returns an empty manifest. *)
Theorem validate_video_url_returns_None :
  forall w,
    (forall url, ProcessVideo.validate_video_url url w = (Return None, w))
    /\ fst (ProcessVideo.validate_video_url
              "https://www.youtube.com/watch?v=dQw4w9WgXcQ" w)
       <> Return (Some true)
    /\ fst (ProcessVideo.process_video "not-a-url" None None w)
       <> Return (Some [])
    /\ (forall e, fst (ProcessVideo.process_video "not-a-url" None None w)
                  <> Raise e).
Proof. intros w. repeat split; intros; discriminate. Qed.

(** ** [download_video] *)
Section DownloadFacts.
Context (env : Env).


(** The URL reaches the collaborator unexamined: when the constructor
    succeeds, [extract_info] is called with it, and a refusal raised there
    makes [download_video] print the error and return [None]. *)
Lemma download_video_refused url output_dir audio_only w fs1 fs2 cls msg :
  let opts := DownloadVideo.ydl_options output_dir audio_only in
  fs_fault env (Mkdir output_dir) = None ->
  yt_dlp_YoutubeDL env opts (files w) = (Return tt, fs1) ->
  ydl_extract_info env opts url false fs1 = (Raise (Exception cls msg), fs2) ->
  DownloadVideo.download_video env url output_dir audio_only w
  = (Return None,
     {| files := fs2;
        stdout := stdout w ++ ["Error downloading video: " +:+ msg];
        calls := calls w ++ [YoutubeDL opts; extract_info url false] |}).
Proof.
  intros opts Hm Hc He. unfold DownloadVideo.download_video.
  rewrite (bind_Return _ _ _ _ _ (mkdir_ok env _ _ Hm)).
  fold opts.
  set (w1 := {| files := fs1; stdout := stdout w;
                calls := calls w ++ [YoutubeDL opts] |}).
  set (w2 := {| files := fs2; stdout := stdout w;
                calls := calls w ++ [YoutubeDL opts; extract_info url false] |}).
  rewrite (try_except_caught _ _ w cls msg w2).
  - reflexivity.
  - rewrite (bind_Return _ _ w tt w1) by (apply call_ext_run; exact Hc).
    apply bind_Raise.
    rewrite (call_ext_run _ _ w1 _ _ He). subst w1 w2. simpl.
    now rewrite <- app_assoc.
Qed.

End DownloadFacts.

(** C6 (as stated, refuted). For the URI [ftp://example.com/video.mp4],
    which the collaborator refuses, [download_video] has already called the
    collaborator twice when the refusal comes, and it returns [None]. *)
Lemma download_video_calls_before_rejecting :
  DownloadVideo.download_video Scenario.env_unsupported_url
    "ftp://example.com/video.mp4" "./downloads" false Scenario.empty_world
  = (Return None,
     {| files := ∅;
        stdout := ["Error downloading video: Unsupported URL: ftp://example.com/video.mp4"];
        calls := [YoutubeDL (DownloadVideo.ydl_options "./downloads" false);
                  extract_info "ftp://example.com/video.mp4" false] |}).
Proof. reflexivity. Qed.

(** Whatever the collaborator answers, the trace of a download whose
    downloader was constructed goes on with [extract_info] on the URL. *)
Lemma download_video_reaches_extract_info env url output_dir audio_only w fs1 :
  let opts := DownloadVideo.ydl_options output_dir audio_only in
  fs_fault env (Mkdir output_dir) = None ->
  yt_dlp_YoutubeDL env opts (files w) = (Return tt, fs1) ->
  exists rest,
    calls (snd (DownloadVideo.download_video env url output_dir audio_only w))
    = calls w ++ [YoutubeDL opts; extract_info url false] ++ rest.
Proof.
  intros opts Hm Hc. unfold DownloadVideo.download_video.
  rewrite (bind_Return _ _ _ _ _ (mkdir_ok env _ _ Hm)). fold opts.
  unfold try_except, bind, call_ext, print, ret. rewrite Hc. cbn [files calls].
  destruct (ydl_extract_info env opts url false fs1) as [[info | [c m | c m]] fs2];
    cbn [files calls stdout snd]; rewrite <- ?app_assoc;
    try (exists []; reflexivity).
  destruct (ydl_prepare_filename env opts info fs2)
    as [[filename | [c m | c m]] fs3];
    cbn [files calls stdout snd]; rewrite <- ?app_assoc;
    try (eexists; reflexivity).
  destruct (ydl_download env opts [url] fs3) as [[code | [c m | c m]] fs4];
    cbn [files calls stdout snd]; rewrite <- ?app_assoc;
    eexists; reflexivity.
Qed.

(** C6 (amended). [download_video] does not examine the scheme: whatever the
    URI, once the output directory exists and the downloader is constructed,
    the URI is handed to the collaborator's [extract_info]; when the
    collaborator refuses it by raising, [download_video] returns [None], and
    [download] has not been called. *)
Theorem download_video_scheme_left_to_collaborator :
  forall env url output_dir audio_only w fs1,
    fs_fault env (Mkdir output_dir) = None ->
    yt_dlp_YoutubeDL env (DownloadVideo.ydl_options output_dir audio_only)
                     (files w) = (Return tt, fs1) ->
    let opts := DownloadVideo.ydl_options output_dir audio_only in
    let run := DownloadVideo.download_video env url output_dir audio_only w in
    (exists rest,
        calls (snd run) = calls w ++ [YoutubeDL opts; extract_info url false]
                          ++ rest)
    /\ (forall fs2 cls msg,
          ydl_extract_info env opts url false fs1
          = (Raise (Exception cls msg), fs2) ->
          fst run = Return None
          /\ calls (snd run)
             = calls w ++ [YoutubeDL opts; extract_info url false]).
Proof.
  intros env url output_dir audio_only w fs1 Hm Hc opts run. subst run.
  split.
  - now apply (download_video_reaches_extract_info env url output_dir
                 audio_only w fs1).
  - intros fs2 cls msg He.
    rewrite (download_video_refused env url output_dir audio_only w fs1 fs2
               cls msg Hm Hc He).
    split; reflexivity.
Qed.

Lemma download_video_scheme_left_to_collaborator_witness :
  let env := Scenario.env_unsupported_url in
  let url := "ftp://example.com/video.mp4" in
  let opts := DownloadVideo.ydl_options "./downloads" false in
  let run := DownloadVideo.download_video env url "./downloads" false
               Scenario.empty_world in
  (exists rest,
      calls (snd run)
      = calls Scenario.empty_world
        ++ [YoutubeDL opts; extract_info url false] ++ rest)
  /\ fst run = Return None
  /\ calls (snd run)
     = calls Scenario.empty_world ++ [YoutubeDL opts; extract_info url false].
Proof.
  intros env url opts run.
  destruct (download_video_scheme_left_to_collaborator env url "./downloads"
              false Scenario.empty_world ∅ eq_refl eq_refl)
    as [Hreach Hrefused].
  split; [exact Hreach |].
  apply (Hrefused ∅ "DownloadError" ("Unsupported URL: " +:+ url)).
  reflexivity.
Defined.

(** ** Formatting with two decimal places *)
Section FormatFacts.
Import Shape.

Lemma all_digits_string_of_uint d :
  all_digits (NilEmpty.string_of_uint d) = true.
Proof. induction d; simpl; auto. Qed.

Lemma str_N_digits n : all_digits (str_N n) = true /\ str_N n <> "".
Proof.
  unfold str_N, NilZero.string_of_uint.
  pose proof (all_digits_string_of_uint (N.to_uint n)) as H.
  destruct (N.to_uint n); split;
    solve [reflexivity | exact H | intros Hx; discriminate Hx].
Qed.

Lemma digit_is_digit n : 0 <= n <= 9 -> is_digit (digit n) = true.
Proof.
  intros H. unfold digit.
  assert (Hn : (Z.to_nat n <= 9)%nat) by lia.
  destruct (Z.to_nat n) as [|[|[|[|[|[|[|[|[|[|k]]]]]]]]]]; try reflexivity; lia.
Qed.

Lemma is_digit_not_dot c : is_digit c = true -> Ascii.eqb c dot = false.
Proof.
  intros H. destruct (Ascii.eqb_spec c dot) as [-> | ]; [| reflexivity].
  vm_compute in H. discriminate H.
Qed.

Lemma is_digit_not_minus c :
  is_digit c = true -> Ascii.eqb c (ascii_of_nat 45) = false.
Proof.
  intros H.
  destruct (Ascii.eqb_spec c (ascii_of_nat 45)) as [-> | ]; [| reflexivity].
  vm_compute in H. discriminate H.
Qed.

Lemma digits_point_2_app ip d1 d2 seen :
  all_digits ip = true ->
  (seen = true \/ ip <> "") ->
  is_digit d1 = true -> is_digit d2 = true ->
  digits_point_2 seen (ip +:+ String dot (String d1 (String d2 ""))) = true.
Proof.
  revert seen. induction ip as [| c ip IH]; intros seen Hall Hne H1 H2.
  - destruct Hne as [-> | Hne]; [| congruence].
    simpl. now rewrite H1, H2.
  - simpl in Hall. apply andb_true_iff in Hall as [Hc Hall].
    change (String c ip +:+ ?t) with (String c (ip +:+ t)).
    simpl digits_point_2.
    rewrite (is_digit_not_dot _ Hc), Hc. simpl.
    apply IH; auto.
Qed.

Lemma is_fixed2_build sgn ip d1 d2 :
  sgn = "" \/ sgn = "-" ->
  all_digits ip = true -> ip <> "" ->
  is_digit d1 = true -> is_digit d2 = true ->
  is_fixed2 (sgn +:+ ip +:+ "." +:+ String d1 (String d2 "")) = true.
Proof.
  intros Hs Hall Hne H1 H2.
  pose proof (digits_point_2_app ip d1 d2 false Hall (or_intror Hne) H1 H2) as H.
  destruct Hs as [-> | ->].
  - destruct ip as [| c ip]; [congruence |].
    simpl in Hall. apply andb_true_iff in Hall as [Hc _].
    change ("" +:+ String c ip +:+ ?t) with (String c (ip +:+ t)).
    change (String c ip +:+ ?t) with (String c (ip +:+ t)) in H.
    unfold is_fixed2. rewrite (is_digit_not_minus _ Hc). exact H.
  - exact H.
Qed.

Lemma round_half_even_nonneg n d : 0 <= n -> 0 < d -> 0 <= round_half_even n d.
Proof.
  intros Hn Hd. unfold round_half_even.
  assert (0 <= n / d) by (apply Z.div_pos; lia).
  repeat match goal with |- context [if ?b then _ else _] => destruct b end; lia.
Qed.

(** The rounded value is a nearest integer: it differs from [n / d] by at
    most one half. *)
Lemma round_half_even_nearest n d :
  0 < d -> Z.abs (2 * n - 2 * d * round_half_even n d) <= d.
Proof.
  intros Hd. unfold round_half_even.
  pose proof (Z.div_mod n d ltac:(lia)) as Hdm.
  pose proof (Z.mod_pos_bound n d Hd) as Hr.
  destruct (Z.ltb_spec (2 * (n mod d)) d);
    [| destruct (Z.ltb_spec d (2 * (n mod d))); [| destruct (Z.even (n / d))]];
    nia.
Qed.

Lemma hundredths_nonneg m e : 0 <= hundredths m e.
Proof.
  unfold hundredths. destruct (0 <=? e) eqn:He.
  - apply Z.leb_le in He.
    assert (0 < 2 ^ e) by (apply Z.pow_pos_nonneg; lia). nia.
  - apply Z.leb_gt in He.
    apply round_half_even_nonneg; [lia |]. apply Z.pow_pos_nonneg; lia.
Qed.

Lemma two_digits_digits n :
  0 <= n < 100 ->
  exists d1 d2, two_digits n = String d1 (String d2 "")
                /\ is_digit d1 = true /\ is_digit d2 = true.
Proof.
  intros Hn. exists (digit (n / 10)), (digit (n mod 10)).
  split; [reflexivity |].
  split; apply digit_is_digit.
  - assert (0 <= n / 10) by (apply Z.div_pos; lia).
    assert (n / 10 < 10) by (apply Z.div_lt_upper_bound; lia).
    lia.
  - pose proof (Z.mod_pos_bound n 10 ltac:(lia)). lia.
Qed.

(** The hundredths printed for [m * 2^e] are exact for a non-negative
    exponent and otherwise within one half of [m * 100 / 2^(-e)]. *)
Lemma hundredths_nearest m e :
  (0 <= e -> hundredths m e = Z.pos m * 2 ^ e * 100)
  /\ (e < 0 ->
      Z.abs (2 * (Z.pos m * 100) - 2 * 2 ^ (- e) * hundredths m e)
      <= 2 ^ (- e)).
Proof.
  unfold hundredths. split; intros He.
  - apply Z.leb_le in He. now rewrite He.
  - assert (Hlt : (0 <=? e) = false) by (apply Z.leb_gt; lia). rewrite Hlt.
    apply round_half_even_nearest. apply Z.pow_pos_nonneg; lia.
Qed.

(** [format(x, '.2f')] of a finite float has exactly two decimal places. *)
Lemma format_2f_is_fixed2 x :
  is_finite x = true -> is_fixed2 (format_2f x) = true.
Proof.
  destruct x as [s | s | | s m e]; simpl; try discriminate; intros _.
  - destruct s; reflexivity.
  - pose proof (hundredths_nonneg m e) as Hh.
    set (h := hundredths m e) in *.
    destruct (two_digits_digits (h mod 100)) as (d1 & d2 & -> & H1 & H2).
    { apply Z.mod_pos_bound. lia. }
    destruct (str_N_digits (Z.to_N (h / 100))) as [Hall Hne].
    apply is_fixed2_build; auto.
    destruct s; auto.
Qed.

Lemma contains_nl_app a b :
  contains_nl (a +:+ b) = contains_nl a || contains_nl b.
Proof.
  induction a as [| c a IH]; [reflexivity |].
  rewrite app_cons. simpl. now rewrite IH, orb_assoc.
Qed.

Lemma is_digit_not_nl c : is_digit c = true -> is_nl c = false.
Proof.
  intros H. unfold is_nl.
  destruct (Ascii.eqb_spec c (ascii_of_nat 10)) as [-> | ]; [| reflexivity].
  vm_compute in H. discriminate H.
Qed.

Lemma digits_point_2_one_line seen s :
  digits_point_2 seen s = true -> contains_nl s = false.
Proof.
  revert seen. induction s as [| c s IH]; intros seen H; [reflexivity |].
  simpl in H. destruct (Ascii.eqb_spec c dot) as [-> | Hc].
  - apply andb_true_iff in H as [_ H].
    destruct s as [| d1 [| d2 [| d3 s]]]; try discriminate H.
    apply andb_true_iff in H as [H1 H2]. simpl.
    now rewrite (is_digit_not_nl _ H1), (is_digit_not_nl _ H2).
  - apply andb_true_iff in H as [Hd H]. simpl.
    rewrite (is_digit_not_nl _ Hd). simpl. now apply (IH true).
Qed.

Lemma is_fixed2_one_line s : is_fixed2 s = true -> contains_nl s = false.
Proof.
  destruct s as [| c s]; [discriminate |]. unfold is_fixed2.
  destruct (Ascii.eqb_spec c (ascii_of_nat 45)) as [-> | Hc]; intros H.
  - simpl. now apply (digits_point_2_one_line false).
  - now apply (digits_point_2_one_line false).
Qed.

(** Reading back a chunk that ends with its only line feed gives that
    chunk as one line. *)
Lemma lines_from_chunk cur t rest :
  contains_nl t = false ->
  lines_from cur (t +:+ nl +:+ rest) = (cur +:+ t +:+ nl) :: lines_from "" rest.
Proof.
  revert cur. induction t as [| c t IH]; intros cur Ht.
  - reflexivity.
  - simpl in Ht. apply orb_false_iff in Ht as [Hc Ht].
    rewrite app_cons. simpl. rewrite Hc.
    rewrite (IH _ Ht). f_equal.
    now rewrite app_assoc_str.
Qed.

Lemma file_lines_concat (chunks : list string) :
  Forall (fun l => exists t, l = t +:+ nl /\ contains_nl t = false) chunks ->
  file_lines (concat_lines chunks) = chunks.
Proof.
  unfold file_lines. induction 1 as [| l chunks (t & -> & Ht) _ IH].
  - reflexivity.
  - cbn [concat_lines fold_right]. fold (concat_lines chunks).
    rewrite app_assoc_str, (lines_from_chunk "" t _ Ht).
    now rewrite IH.
Qed.

Lemma segment_line_one_line sg :
  plain_segment sg = true ->
  exists t, TranscribeAudio.segment_line sg = t +:+ nl
            /\ contains_nl t = false.
Proof.
  intros H. apply andb_true_iff in H as [Hfin Htext].
  apply andb_true_iff in Hfin as [Hs He].
  apply negb_true_iff in Htext.
  exists ("[" +:+ format_2f (seg_start sg) +:+ " - "
          +:+ format_2f (seg_end sg) +:+ "]: " +:+ seg_text sg).
  split.
  - unfold TranscribeAudio.segment_line. now rewrite !app_assoc_str.
  - rewrite !contains_nl_app, Htext.
    rewrite (is_fixed2_one_line _ (format_2f_is_fixed2 _ Hs)).
    rewrite (is_fixed2_one_line _ (format_2f_is_fixed2 _ He)).
    reflexivity.
Qed.

End FormatFacts.

(** ** Stepping through a stage function *)
Section StepFacts.
Context (env : Env) {B : Type}.

Lemma set_files_same w : set_files w (files w) = w.
Proof. now destruct w. Qed.

Lemma bind_mkdir p (k : unit -> M B) w :
  fs_fault env (Mkdir p) = None -> bind (mkdir env p) k w = k tt w.
Proof. intros H. apply bind_Return, mkdir_ok, H. Qed.

Lemma bind_print s (k : unit -> M B) w :
  bind (print s) k w
  = k tt {| files := files w; stdout := stdout w ++ [s]; calls := calls w |}.
Proof. reflexivity. Qed.

Lemma bind_call_ext {A : Type} c (op : ext A) (k : A -> M B) w v fs :
  op (files w) = (Return v, fs) ->
  bind (call_ext c op) k w
  = k v {| files := fs; stdout := stdout w; calls := calls w ++ [c] |}.
Proof. intros H. apply bind_Return, call_ext_run, H. Qed.

Lemma bind_call_ext_Raise {A : Type} c (op : ext A) (k : A -> M B) w e fs :
  op (files w) = (Raise e, fs) ->
  bind (call_ext c op) k w
  = (Raise e, {| files := fs; stdout := stdout w; calls := calls w ++ [c] |}).
Proof. intros H. apply bind_Raise, call_ext_run, H. Qed.

Lemma bind_read_text p (k : string -> M B) w content :
  fs_fault env (OpenRead p) = None ->
  files w !! p = Some content ->
  bind (read_text env p) k w = k content w.
Proof. intros Hf Hp. apply bind_Return, read_text_ok; assumption. Qed.

Lemma bind_open_w p (k : unit -> M B) w :
  fs_fault env (OpenWrite p) = None ->
  bind (open_w env p) k w = k tt (set_files w (<[p := ""]> (files w))).
Proof. intros H. apply bind_Return, open_w_ok, H. Qed.

Lemma bind_write_text p data (k : unit -> M B) w :
  fs_fault env (OpenWrite p) = None ->
  fs_fault env (FileWrite p data) = None ->
  bind (write_text env p data) k w
  = k tt (set_files w (<[p := data]> (files w))).
Proof. intros Ho Hw. apply bind_Return, write_text_ok; assumption. Qed.

End StepFacts.

(** A collaborator call whose answer is the hypothesis [H]. *)
Ltac call_returns H :=
  erewrite bind_call_ext by (cbn [files stdout calls]; exact H);
  cbn [files stdout calls].
Ltac call_raises H :=
  erewrite bind_call_ext_Raise by (cbn [files stdout calls]; exact H);
  cbn [files stdout calls].

(** ** [transcribe_audio] *)
Section TranscribeFacts.
Context (env : Env).
Import Shape.

(** The loop over the segments appends one line per segment, in order. *)
Lemma for_each_segment_lines p (l : list segment) w old :
  (forall sg, In sg l ->
     fs_fault env (FileWrite p (TranscribeAudio.segment_line sg)) = None) ->
  files w !! p = Some old ->
  for_each l (fun sg => f_write env p (TranscribeAudio.segment_line sg)) w
  = (Return tt,
     set_files w
       (<[p := old +:+ concat_lines (map TranscribeAudio.segment_line l)]>
          (files w))).
Proof.
  revert w old. induction l as [| sg l IH]; intros w old Hf Hp.
  - simpl. unfold ret. f_equal.
    rewrite app_empty_r, insert_id by exact Hp. now rewrite set_files_same.
  - cbn [for_each].
    rewrite (bind_Return _ _ _ _ _ (f_write_ok env _ _ _ (Hf sg (or_introl eq_refl)))).
    rewrite Hp. cbn [default].
    rewrite (IH _ (old +:+ TranscribeAudio.segment_line sg)).
    + unfold set_files; simpl. rewrite insert_insert_eq.
      do 3 f_equal. unfold concat_lines. simpl. apply app_assoc_str.
    + intros sg' Hin. apply Hf. now right.
    + unfold set_files; simpl. apply lookup_insert_eq.
Qed.

(** A transcription that succeeds: what is returned, written and printed. *)
Lemma transcribe_audio_success audio_file model_size output_dir w
    model fs1 res fs2 :
  fault_free env ->
  whisper_load_model env model_size (files w) = (Return model, fs1) ->
  model_transcribe env model audio_file fs1 = (Return res, fs2) ->
  TranscribeAudio.transcribe_audio env audio_file model_size output_dir w
  = (Return (Some res),
     {| files :=
          <[TranscribeAudio.segments_file_path audio_file output_dir :=
              concat_lines (map TranscribeAudio.segment_line (segments res))]>
            (<[TranscribeAudio.transcript_file_path audio_file output_dir :=
                 text res]> fs2);
        stdout :=
          stdout w ++
          ["Loading Whisper model: " +:+ model_size;
           "Transcribing: " +:+ audio_file;
           "Transcription saved to: "
             +:+ TranscribeAudio.transcript_file_path audio_file output_dir;
           "Segments saved to: "
             +:+ TranscribeAudio.segments_file_path audio_file output_dir];
        calls := calls w ++ [load_model model_size;
                             transcribe model audio_file] |}).
Proof.
  intros Hff Hload Htr. unfold TranscribeAudio.transcribe_audio.
  rewrite bind_mkdir by apply Hff.
  rewrite bind_print.
  call_returns Hload.
  apply try_except_Return.
  rewrite bind_print.
  call_returns Htr.
  rewrite bind_write_text by apply Hff.
  rewrite bind_open_w by apply Hff.
  erewrite bind_Return.
  2:{ apply (for_each_segment_lines _ _ _ "").
      - intros; apply Hff.
      - unfold set_files; simpl. apply lookup_insert_eq. }
  unfold set_files, bind, print, ret; simpl.
  rewrite insert_insert_eq.
  now rewrite <- !app_assoc.
Qed.

(** An exception raised by [whisper.load_model] leaves [transcribe_audio]:
    the call stands before the guarded block. *)
Lemma transcribe_audio_load_model_raises audio_file model_size output_dir w
    e fs1 :
  fs_fault env (Mkdir output_dir) = None ->
  whisper_load_model env model_size (files w) = (Raise e, fs1) ->
  fst (TranscribeAudio.transcribe_audio env audio_file model_size output_dir w)
  = Raise e.
Proof.
  intros Hm Hload. unfold TranscribeAudio.transcribe_audio.
  rewrite bind_mkdir by exact Hm.
  rewrite bind_print.
  now call_raises Hload.
Qed.

(** An [Exception] raised by [model.transcribe] is caught: [None]. *)
Lemma transcribe_audio_decode_error audio_file model_size output_dir w
    model fs1 cls msg fs2 :
  fs_fault env (Mkdir output_dir) = None ->
  whisper_load_model env model_size (files w) = (Return model, fs1) ->
  model_transcribe env model audio_file fs1 = (Raise (Exception cls msg), fs2) ->
  fst (TranscribeAudio.transcribe_audio env audio_file model_size output_dir w)
  = Return None.
Proof.
  intros Hm Hload Htr. unfold TranscribeAudio.transcribe_audio.
  rewrite bind_mkdir by exact Hm.
  rewrite bind_print.
  call_returns Hload.
  erewrite try_except_caught; [reflexivity |].
  rewrite bind_print.
  now call_raises Htr.
Qed.

End TranscribeFacts.

(** ** The timestamps of the segments file *)
Section NumeralFacts.
Import Shape.

Lemma split_point_digits ip fp :
  all_digits ip = true -> split_point (ip +:+ String dot fp) = Some (ip, fp).
Proof.
  induction ip as [| c ip IH]; intros Hall.
  - reflexivity.
  - simpl in Hall. apply andb_true_iff in Hall as [Hc Hall].
    rewrite app_cons. simpl.
    now rewrite (is_digit_not_dot _ Hc), (IH Hall).
Qed.

(** Two digits read as a number give ten times the first plus the second. *)
Lemma two_digits_read a b :
  0 <= a <= 9 -> 0 <= b <= 9 ->
  exists v, NilZero.uint_of_string (String (digit a) (String (digit b) ""))
            = Some v
            /\ Z.of_N (N.of_uint v) = 10 * a + b.
Proof.
  intros Ha Hb.
  assert (Ea : a = 0 \/ a = 1 \/ a = 2 \/ a = 3 \/ a = 4 \/ a = 5 \/ a = 6
               \/ a = 7 \/ a = 8 \/ a = 9) by lia.
  assert (Eb : b = 0 \/ b = 1 \/ b = 2 \/ b = 3 \/ b = 4 \/ b = 5 \/ b = 6
               \/ b = 7 \/ b = 8 \/ b = 9) by lia.
  clear Ha Hb.
  repeat (destruct Ea as [-> | Ea]); try subst a;
    repeat (destruct Eb as [-> | Eb]); try subst b;
    (eexists; split; [reflexivity | reflexivity]).
Qed.

Lemma str_N_read k :
  NilZero.uint_of_string (str_N k) = Some (N.to_uint k).
Proof.
  unfold str_N. apply NilZero.usu.
  destruct k as [| q]; [discriminate | apply DecimalPos.Unsigned.to_uint_nonnil].
Qed.

(** The numeral printed for a sign, an integer part and hundredths below
    one hundred denotes them. *)
Lemma fixed2_value_build sgn k r :
  0 <= r < 100 ->
  fixed2_value (sign_str sgn +:+ str_N k +:+ "." +:+ two_digits r)
  = Some (sgn, Z.of_N k * 100 + r).
Proof.
  intros Hr.
  destruct (str_N_digits k) as [Hall Hne].
  destruct (two_digits_digits r Hr) as (d1 & d2 & Htwo & H1 & H2).
  assert (Hfix : is_fixed2 (sign_str sgn +:+ str_N k +:+ "." +:+ two_digits r)
                 = true).
  { rewrite Htwo. apply is_fixed2_build; auto. destruct sgn; auto. }
  unfold fixed2_value. rewrite Hfix.
  assert (Hsplit : split_sign (sign_str sgn +:+ str_N k +:+ "." +:+ two_digits r)
                   = (sgn, str_N k +:+ "." +:+ two_digits r)).
  { destruct sgn.
    - reflexivity.
    - change (sign_str false +:+ ?t) with t.
      destruct (str_N k) as [| c ip] eqn:E; [congruence |].
      simpl in Hall. apply andb_true_iff in Hall as [Hc _].
      rewrite app_cons. unfold split_sign.
      now rewrite (is_digit_not_minus _ Hc). }
  rewrite Hsplit.
  change ("." +:+ two_digits r) with (String dot (two_digits r)).
  rewrite (split_point_digits _ _ Hall), str_N_read.
  assert (Ha : 0 <= r / 10 <= 9).
  { split; [apply Z.div_pos; lia |].
    assert (r / 10 < 10) by (apply Z.div_lt_upper_bound; lia). lia. }
  assert (Hb : 0 <= r mod 10 <= 9).
  { pose proof (Z.mod_pos_bound r 10 ltac:(lia)). lia. }
  destruct (two_digits_read _ _ Ha Hb) as (v & Hv & Hval).
  unfold two_digits. rewrite Hv.
  rewrite DecimalN.Unsigned.of_to, Hval.
  rewrite <- (Z.div_mod r 10) by lia. reflexivity.
Qed.

(** [format(x, '.2f')] stands for [x]: a numeral that denotes [x] rounded
    to a nearest hundredth, or the name of what is not a number. *)
Lemma format_2f_prints x : prints_as x (format_2f x).
Proof.
  destruct x as [sgn | sgn | | sgn m e].
  - exists 0. split; [now destruct sgn | reflexivity].
  - now destruct sgn.
  - reflexivity.
  - exists (hundredths m e). split.
    + pose proof (hundredths_nonneg m e) as Hh.
      cbn [format_2f float_sign].
      rewrite fixed2_value_build by (apply Z.mod_pos_bound; lia).
      do 2 f_equal.
      rewrite Z2N.id by (apply Z.div_pos; lia).
      rewrite Z.mul_comm. symmetry. apply Z.div_mod. lia.
    + pose proof (hundredths_nearest m e) as [Hexact Hnear].
      cbn [nearest_hundredths].
      destruct (Z.leb_spec 0 e); [apply Hexact | apply Hnear]; lia.
Qed.

Lemma segment_line_record sg :
  segment_record sg (TranscribeAudio.segment_line sg).
Proof.
  exists (format_2f (seg_start sg)), (format_2f (seg_end sg)).
  split; [reflexivity |]. split; apply format_2f_prints.
Qed.

End NumeralFacts.

(** C9 (as stated, refuted). A transcription whose first segment starts at
    a time that is not a number and whose second segment has a text of two
    lines succeeds; its segments file has three lines for two segments, the
    first carries [nan], which has no decimal places, and the third is the
    rest of a text. *)
Lemma segments_file_not_one_line_each :
  let run :=
    TranscribeAudio.transcribe_audio Scenario2.env_garbled "downloads/talk.wav"
      "base" "./transcriptions" Scenario.empty_world in
  fst run = Return (Some Scenario2.garbled)
  /\ length (segments Scenario2.garbled) = 2%nat
  /\ Shape.file_lines
       (default "" (files (snd run) !! "./transcriptions/talk_segments.txt"))
     = ["[nan - 1.50]:  Hello" +:+ nl;
        "[1.50 - 2.00]:  wor" +:+ nl;
        "ld" +:+ nl]
  /\ Shape.is_fixed2 "nan" = false.
Proof. repeat split. Qed.

(** The numerals of the example denote the timestamps: 2.5 seconds is 250
    hundredths, 3.125 seconds is printed as 312 hundredths. *)
Example fixed2_value_of_talk :
  Shape.fixed2_value (format_2f (S754_finite false 5 (-1))) = Some (false, 250)
  /\ Shape.fixed2_value (format_2f (S754_finite false 25 (-3)))
     = Some (false, 312)
  /\ Shape.fixed2_value "0.0" = None.
Proof. repeat split. Qed.

(** Outside these conditions the shape is lost: a timestamp that is not a
    number prints without decimals. *)
Example format_2f_nan :
  format_2f S754_nan = "nan" /\ Shape.is_fixed2 (format_2f S754_nan) = false.
Proof. split; reflexivity. Qed.

(** The segments file of the example, as it is written. *)
Example segments_file_of_talk :
  files (snd (TranscribeAudio.transcribe_audio Scenario.env_ok
                "downloads/talk.wav" "base" "./transcriptions"
                Scenario.empty_world))
    !! "./transcriptions/talk_segments.txt"
  = Some ("[0.00 - 2.50]:  Hello world." +:+ nl
          +:+ "[2.50 - 3.12]:  Bye." +:+ nl).
Proof. reflexivity. Qed.

(** C10 (the code at the failing input). With a whisper that cannot load
    the model named [huge], [transcribe_audio] does not return [None]: the
    [RuntimeError] of [whisper.load_model] reaches the caller. *)
Theorem transcribe_audio_lets_load_error_through :
  fst (TranscribeAudio.transcribe_audio Scenario.env_whisper_down
         "downloads/talk.wav" "huge" "./transcriptions" Scenario.empty_world)
  = Raise (Exception "RuntimeError" "Model huge not found").
Proof. reflexivity. Qed.

(** ** [summarize_text] and the two summarisers *)
Section SummarizeFacts.
Context (env : Env).

Lemma summarize_with_transformers_no_Exception text model_name max_length :
  no_Exception
    (SummarizeText.summarize_with_transformers env text model_name max_length).
Proof. apply no_Exception_try_except. Qed.

Lemma summarize_with_openai_no_Exception text model max_tokens :
  no_Exception (SummarizeText.summarize_with_openai env text model max_tokens).
Proof. apply no_Exception_try_except. Qed.

Lemma write_summary_no_Exception_at input_file output_dir summary :
  writable env (SummarizeText.summary_file_path input_file output_dir) ->
  no_Exception (SummarizeText.write_summary env input_file output_dir summary).
Proof.
  intros Hw. unfold SummarizeText.write_summary.
  destruct summary as [summary_text |]; [| auto with no_exn].
  destruct (truthy (Some summary_text)); [| auto with no_exn].
  apply no_Exception_bind; [now apply no_Exception_write_text_at | intros _].
  apply no_Exception_bind; auto with no_exn.
Qed.

(** When the output directory can be made and the summary file written, no
    [Exception] leaves [summarize_text], whatever the libraries do and
    whether the input can be read or not: a failure of the read, of the
    local model or of the API is caught. *)
Lemma summarize_text_no_Exception_at input_file output_dir method max_length :
  fs_fault env (Mkdir output_dir) = None ->
  writable env (SummarizeText.summary_file_path input_file output_dir) ->
  no_Exception
    (SummarizeText.summarize_text env input_file output_dir method max_length).
Proof.
  intros Hm Hw. unfold SummarizeText.summarize_text.
  apply no_Exception_bind; [apply no_Exception_mkdir, Hm | intros _].
  apply no_Exception_bind; [apply no_Exception_try_except |].
  intros [text |]; [| auto with no_exn].
  destruct (String.eqb method "transformers").
  - destruct (negb (SummarizeText.TRANSFORMERS_AVAILABLE env)).
    + apply no_Exception_bind; auto with no_exn.
    + apply no_Exception_bind;
        [apply summarize_with_transformers_no_Exception |].
      intros summary. now apply write_summary_no_Exception_at.
  - destruct (String.eqb method "openai").
    + destruct (negb (SummarizeText.OPENAI_AVAILABLE env)).
      * apply no_Exception_bind; auto with no_exn.
      * apply no_Exception_bind; [apply summarize_with_openai_no_Exception |].
        intros summary. now apply write_summary_no_Exception_at.
    + apply no_Exception_bind; auto with no_exn.
Qed.

Lemma write_summary_no_Exception input_file output_dir summary :
  fault_free env ->
  no_Exception (SummarizeText.write_summary env input_file output_dir summary).
Proof.
  intros Hff. now apply write_summary_no_Exception_at, fault_free_writable.
Qed.

(** With a disk that refuses nothing, no [Exception] leaves
    [summarize_text], whatever the libraries do. *)
Lemma summarize_text_no_Exception input_file output_dir method max_length :
  fault_free env ->
  no_Exception
    (SummarizeText.summarize_text env input_file output_dir method max_length).
Proof.
  intros Hff.
  apply summarize_text_no_Exception_at; [apply Hff |].
  now apply fault_free_writable.
Qed.

(** An [Exception] raised while the pipeline is built is turned into
    [None] by the summariser. *)
Lemma summarize_with_transformers_pipeline_error text model_name max_length w
    cls msg fs1 :
  transformers_installed env = true ->
  transformers_pipeline env "summarization" model_name (files w)
  = (Raise (Exception cls msg), fs1) ->
  SummarizeText.summarize_with_transformers env text model_name max_length w
  = (Return None,
     {| files := fs1;
        stdout := stdout w ++ ["Error with transformers summarization: " +:+ msg];
        calls := calls w ++ [pipeline "summarization" model_name] |}).
Proof.
  intros Hi Hp. unfold SummarizeText.summarize_with_transformers.
  erewrite try_except_caught_print.
  2:{ unfold SummarizeText.TRANSFORMERS_AVAILABLE, imported. rewrite Hi.
      now call_raises Hp. }
  reflexivity.
Qed.

(** When the summariser gives [None], so does [summarize_text], and no
    summary file is written. *)
Lemma summarize_text_transformers_None input_file output_dir max_length w
    content w' :
  fs_fault env (Mkdir output_dir) = None ->
  fs_fault env (OpenRead input_file) = None ->
  files w !! input_file = Some content ->
  transformers_installed env = true ->
  SummarizeText.summarize_with_transformers env (strip content)
    "facebook/bart-large-cnn" max_length w = (Return None, w') ->
  SummarizeText.summarize_text env input_file output_dir "transformers"
    max_length w = (Return None, w').
Proof.
  intros Hm Hr Hc Hi Hs. unfold SummarizeText.summarize_text.
  rewrite bind_mkdir by exact Hm.
  erewrite bind_Return.
  2:{ apply try_except_Return.
      rewrite (bind_read_text env _ _ _ content) by assumption.
      reflexivity. }
  cbn [String.eqb Ascii.eqb Bool.eqb andb].
  unfold SummarizeText.TRANSFORMERS_AVAILABLE. rewrite Hi. cbn [negb].
  now rewrite (bind_Return _ _ _ _ _ Hs).
Qed.

End SummarizeFacts.

(** ** [generate_blog] *)
Section BlogFacts.
Context (env : Env).

Lemma generate_blog_with_openai_no_Exception summary title model max_tokens :
  no_Exception
    (GenerateBlog.generate_blog_with_openai env summary title model max_tokens).
Proof. apply no_Exception_try_except. Qed.

Lemma write_blog_no_Exception_at input_file output_dir title blog_content :
  writable env (GenerateBlog.blog_file_path input_file output_dir title) ->
  no_Exception
    (GenerateBlog.write_blog env input_file output_dir title blog_content).
Proof.
  intros Hw. unfold GenerateBlog.write_blog.
  destruct blog_content as [content |]; [| auto with no_exn].
  destruct (truthy (Some content)); [| auto with no_exn].
  apply no_Exception_bind; [now apply no_Exception_write_text_at | intros _].
  apply no_Exception_bind; auto with no_exn.
Qed.

(** When the output directory can be made and the blog file written, no
    [Exception] leaves [generate_blog], whatever the API does and whether
    the input can be read or not. *)
Lemma generate_blog_no_Exception_at input_file output_dir title method
    video_url :
  fs_fault env (Mkdir output_dir) = None ->
  writable env (GenerateBlog.blog_file_path input_file output_dir title) ->
  no_Exception
    (GenerateBlog.generate_blog env input_file output_dir title method
       video_url).
Proof.
  intros Hm Hw. unfold GenerateBlog.generate_blog.
  apply no_Exception_bind; [apply no_Exception_mkdir, Hm | intros _].
  apply no_Exception_bind; [apply no_Exception_try_except |].
  intros [summary |]; [| auto with no_exn].
  destruct (String.eqb method "openai").
  - destruct (negb (GenerateBlog.OPENAI_AVAILABLE env)).
    + apply no_Exception_bind; auto with no_exn.
    + apply no_Exception_bind; [apply generate_blog_with_openai_no_Exception |].
      intros blog_content. now apply write_blog_no_Exception_at.
  - apply no_Exception_bind.
    + unfold GenerateBlog.generate_blog_template, GenerateBlog.now_strftime.
      apply no_Exception_bind; auto with no_exn.
    + intros blog_content. now apply write_blog_no_Exception_at.
Qed.

Lemma write_blog_no_Exception input_file output_dir title blog_content :
  fault_free env ->
  no_Exception
    (GenerateBlog.write_blog env input_file output_dir title blog_content).
Proof.
  intros Hff. now apply write_blog_no_Exception_at, fault_free_writable.
Qed.

(** With a disk that refuses nothing, no [Exception] leaves
    [generate_blog], whatever the API does. *)
Lemma generate_blog_no_Exception input_file output_dir title method video_url :
  fault_free env ->
  no_Exception
    (GenerateBlog.generate_blog env input_file output_dir title method
       video_url).
Proof.
  intros Hff.
  apply generate_blog_no_Exception_at; [apply Hff |].
  now apply fault_free_writable.
Qed.

(** The template is never empty: it opens with the front-matter rule. *)
Lemma render_template_nonempty date_str summary title video_url :
  String.eqb
    (GenerateBlog.render_template date_str summary title video_url) ""
  = false.
Proof.
  unfold GenerateBlog.render_template.
  destruct (negb (String.eqb video_url "")); reflexivity.
Qed.

(** Generation from the template, the input file being readable and the
    disk accepting the write: the result, the file, the message; no call
    into a library is made, and nothing depends on openai. *)
Lemma generate_blog_template_run input_file output_dir title video_url w
    content :
  fault_free env ->
  files w !! input_file = Some content ->
  let blog :=
    GenerateBlog.render_template (today env) (strip content) title video_url in
  let blog_file := GenerateBlog.blog_file_path input_file output_dir title in
  GenerateBlog.generate_blog env input_file output_dir title "template"
    video_url w
  = (Return (Some blog),
     {| files := <[blog_file := blog]> (files w);
        stdout := stdout w ++ ["Blog post saved to: " +:+ blog_file];
        calls := calls w |}).
Proof.
  intros Hff Hc blog blog_file. unfold GenerateBlog.generate_blog.
  rewrite bind_mkdir by apply Hff.
  erewrite bind_Return.
  2:{ apply try_except_Return.
      rewrite (bind_read_text env _ _ _ content) by (apply Hff || exact Hc).
      reflexivity. }
  cbn [String.eqb Ascii.eqb Bool.eqb andb].
  unfold GenerateBlog.generate_blog_template, GenerateBlog.now_strftime.
  unfold bind at 1. cbn [ret]. unfold bind at 1. cbn [ret].
  fold blog. unfold GenerateBlog.write_blog, truthy.
  subst blog. rewrite render_template_nonempty. cbn [negb].
  rewrite bind_write_text by apply Hff.
  reflexivity.
Qed.

(** With a method other than [openai], [generate_blog] reads the
    environment only for disk faults and the date: environments that agree
    on these give the same run, whatever they say about openai. *)
Lemma generate_blog_template_env (env' : Env) input_file output_dir title
    method video_url w :
  String.eqb method "openai" = false ->
  fs_fault env' = fs_fault env ->
  today env' = today env ->
  GenerateBlog.generate_blog env' input_file output_dir title method video_url w
  = GenerateBlog.generate_blog env input_file output_dir title method
      video_url w.
Proof.
  intros Hm Hf Ht.
  unfold GenerateBlog.generate_blog, GenerateBlog.generate_blog_template,
    GenerateBlog.now_strftime, GenerateBlog.write_blog, write_text, open_w,
    f_write, read_text, mkdir, guard_fault.
  now rewrite Hm, Hf, Ht.
Qed.

End BlogFacts.

(** C7. Generation with the method [template] does not depend on a backend:
    in every environment (whether openai is installed or not, whatever its
    API answers), for every input file that can be read and a disk that
    accepts the write, [generate_blog] succeeds; the blog it returns is the
    template filled with the date, the stripped summary, the title and the
    URL, it is not empty, it becomes the content of one file, and no call
    into a library is made. *)
Theorem template_blog_needs_no_backend :
  forall env input_file output_dir title video_url w content,
    fault_free env ->
    files w !! input_file = Some content ->
    let run :=
      GenerateBlog.generate_blog env input_file output_dir title "template"
        video_url w in
    let blog :=
      GenerateBlog.render_template (today env) (strip content) title
        video_url in
    fst run = Return (Some blog)
    /\ blog <> ""
    /\ calls (snd run) = calls w
    /\ exists blog_file, files (snd run) = <[blog_file := blog]> (files w).
Proof.
  intros env input_file output_dir title video_url w content Hff Hc run blog.
  subst run blog.
  rewrite (generate_blog_template_run env input_file output_dir title
             video_url w content Hff Hc).
  split; [reflexivity |].
  split; [| split; [reflexivity | eexists; reflexivity]].
  intros Heq.
  pose proof (render_template_nonempty (today env) (strip content) title
                video_url) as Hne.
  rewrite Heq in Hne. discriminate Hne.
Qed.

Lemma template_blog_needs_no_backend_witness :
  let run :=
    GenerateBlog.generate_blog Scenario.env_no_openai
      "summaries/abc123_summary.txt" "./blogs" "" "template" ""
      Scenario.summary_world in
  let blog :=
    GenerateBlog.render_template "2024-05-17" "A greeting and a farewell." ""
      "" in
  fst run = Return (Some blog)
  /\ blog <> ""
  /\ calls (snd run) = []
  /\ exists blog_file,
       files (snd run) = <[blog_file := blog]> (files Scenario.summary_world).
Proof.
  apply (template_blog_needs_no_backend Scenario.env_no_openai
           "summaries/abc123_summary.txt" "./blogs" "" "" Scenario.summary_world
           "  A greeting and a farewell.").
  - intros op. reflexivity.
  - reflexivity.
Defined.

(** ** Writes that are interrupted *)
Section InterruptedWrites.
Context (env : Env).
Import Shape.




End InterruptedWrites.




(** ** Where the artifacts are written *)
Section PathFacts.

(** Two file names with a common start and different ends are joined to
    different paths. *)
Lemma os_path_join_differs d s x y :
  x <> y ->
  s <> "" \/ (startswith (String slash "") x = false
              /\ startswith (String slash "") y = false) ->
  os_path_join d (s +:+ x) <> os_path_join d (s +:+ y).
Proof.
  intros Hxy Hs Heq. apply Hxy. unfold os_path_join in Heq.
  assert (Hsame : startswith (String slash "") (s +:+ x)
                  = startswith (String slash "") (s +:+ y)).
  { destruct s as [| c s]; [| reflexivity].
    destruct Hs as [Hs | [Hx Hy]]; [congruence |].
    change ("" +:+ x) with x. change ("" +:+ y) with y. congruence. }
  rewrite <- Hsame in Heq.
  destruct (startswith (String slash "") (s +:+ x)).
  - now apply (inj (String.app s)) in Heq.
  - destruct (String.eqb d "" || endswith_char slash d)%bool.
    + apply (inj (String.app d)) in Heq. now apply (inj (String.app s)) in Heq.
    + apply (inj (String.app d)) in Heq. injection Heq as Heq.
      now apply (inj (String.app s)) in Heq.
Qed.

Lemma transcript_segments_differ audio_file output_dir :
  TranscribeAudio.transcript_file_path audio_file output_dir
  <> TranscribeAudio.segments_file_path audio_file output_dir.
Proof.
  unfold TranscribeAudio.transcript_file_path,
    TranscribeAudio.segments_file_path.
  change "_transcript.txt" with ("_" +:+ "transcript.txt").
  change "_segments.txt" with ("_" +:+ "segments.txt").
  rewrite <- !app_assoc_str.
  apply os_path_join_differs.
  - discriminate.
  - left. destruct (path_stem audio_file); discriminate.
Qed.

End PathFacts.

Section SummarizeRun.
Context (env : Env).

(** A summary by the local model that succeeds: what is returned, written
    and printed. *)
Lemma summarize_text_transformers_run input_file output_dir max_length w
    content summarizer fs1 summary others fs2 :
  fault_free env ->
  files w !! input_file = Some content ->
  transformers_installed env = true ->
  transformers_pipeline env "summarization" "facebook/bart-large-cnn" (files w)
  = (Return summarizer, fs1) ->
  summarizer_call env summarizer (strip content) max_length 30 false fs1
  = (Return (summary :: others), fs2) ->
  String.eqb summary "" = false ->
  SummarizeText.summarize_text env input_file output_dir "transformers"
    max_length w
  = (Return (Some summary),
     {| files :=
          <[SummarizeText.summary_file_path input_file output_dir := summary]>
            fs2;
        stdout :=
          stdout w ++
          ["Summary saved to: "
             +:+ SummarizeText.summary_file_path input_file output_dir];
        calls :=
          calls w ++ [pipeline "summarization" "facebook/bart-large-cnn";
                      Py.summarizer summarizer (strip content) max_length 30
                        false] |}).
Proof.
  intros Hff Hc Hi Hp Hs Hne. unfold SummarizeText.summarize_text.
  rewrite bind_mkdir by apply Hff.
  erewrite bind_Return.
  2:{ apply try_except_Return.
      rewrite (bind_read_text env _ _ _ content) by (apply Hff || exact Hc).
      reflexivity. }
  cbn [String.eqb Ascii.eqb Bool.eqb andb].
  unfold SummarizeText.TRANSFORMERS_AVAILABLE. rewrite Hi. cbn [negb].
  erewrite bind_Return.
  2:{ unfold SummarizeText.summarize_with_transformers.
      apply try_except_Return.
      unfold SummarizeText.TRANSFORMERS_AVAILABLE, imported. rewrite Hi.
      call_returns Hp. call_returns Hs. reflexivity. }
  unfold SummarizeText.write_summary, truthy. rewrite Hne. cbn [negb].
  rewrite bind_write_text by apply Hff.
  unfold bind, print, ret, set_files; simpl.
  now rewrite <- app_assoc.
Qed.

End SummarizeRun.

(** * Further properties of the stage functions *)

(** ** Reading a run backwards *)
Section Inversion.
Context {A B : Type}.

Lemma bind_Return_inv (m : M A) (k : A -> M B) w x w' :
  bind m k w = (Return x, w') ->
  exists v w1, m w = (Return v, w1) /\ k v w1 = (Return x, w').
Proof.
  unfold bind. destruct (m w) as [[v | e] w1]; intros H.
  - now exists v, w1.
  - discriminate H.
Qed.

(** A guarded block whose handler answers [None] gives a value other than
    [None] only when its body does. *)
Lemma try_except_Some_inv (body : M (option A)) (line : exn -> string) w x w' :
  try_except body (fun e => print (line e) ;; ret None) w
  = (Return (Some x), w') ->
  body w = (Return (Some x), w').
Proof.
  unfold try_except. destruct (body w) as [[v | [c m | c m]] w1]; intros H.
  - exact H.
  - discriminate H.
  - exact H.
Qed.

Lemma call_ext_Return_inv (c : call) (op : ext A) w v w' :
  call_ext c op w = (Return v, w') ->
  exists fs, op (files w) = (Return v, fs)
             /\ w' = {| files := fs; stdout := stdout w;
                        calls := calls w ++ [c] |}.
Proof.
  unfold call_ext. destruct (op (files w)) as [r fs]. intros [= -> <-].
  now exists fs.
Qed.

End Inversion.

Section FileInversion.
Context (env : Env).

Lemma guard_fault_Return_inv op w v w' :
  guard_fault env op w = (Return v, w') -> w' = w.
Proof.
  unfold guard_fault. destruct (fs_fault env op); intros [=]; congruence.
Qed.

Lemma open_w_Return_inv p w v w' :
  open_w env p w = (Return v, w') ->
  w' = set_files w (<[p := ""]> (files w)).
Proof.
  unfold open_w. intros H.
  apply bind_Return_inv in H as (u & w1 & Hg & H).
  apply guard_fault_Return_inv in Hg as ->. now inversion H.
Qed.

Lemma f_write_Return_inv p data w v w' :
  f_write env p data w = (Return v, w') ->
  w' = set_files w (<[p := default "" (files w !! p) +:+ data]> (files w)).
Proof.
  unfold f_write. intros H.
  apply bind_Return_inv in H as (u & w1 & Hg & H).
  apply guard_fault_Return_inv in Hg as ->. now inversion H.
Qed.

Lemma write_text_Return_inv p data w v w' :
  write_text env p data w = (Return v, w') ->
  w' = set_files w (<[p := data]> (files w)).
Proof.
  unfold write_text. intros H.
  apply bind_Return_inv in H as (u & w1 & Ho & H).
  apply open_w_Return_inv in Ho as ->.
  apply f_write_Return_inv in H as ->.
  unfold set_files; simpl. rewrite lookup_insert_eq. simpl.
  now rewrite insert_insert_eq.
Qed.

Lemma read_text_frame p w r w' : read_text env p w = (r, w') -> w' = w.
Proof.
  unfold read_text, bind, guard_fault.
  destruct (fs_fault env (OpenRead p)); unfold raise, ret.
  - now intros [= _ <-].
  - destruct (files w !! p); now intros [= _ <-].
Qed.

Lemma read_text_Return_inv p w v w' :
  read_text env p w = (Return v, w') -> files w !! p = Some v.
Proof.
  unfold read_text, bind, guard_fault.
  destruct (fs_fault env (OpenRead p)); unfold raise, ret; [discriminate |].
  destruct (files w !! p); [now intros [= -> _] | discriminate].
Qed.

(** Reading the input inside its guarded block changes neither the files
    nor the trace of calls. *)
Lemma guarded_read_frame input_file w r w' :
  try_except
    (let* content := read_text env input_file in ret (Some (strip content)))
    (fun e => print ("Error reading input file: " +:+ str_exn e) ;; ret None)
    w = (r, w') ->
  files w' = files w /\ calls w' = calls w.
Proof.
  unfold try_except, bind at 1.
  destruct (read_text env input_file w) as [[v | [c m | c m]] w1] eqn:E;
    apply read_text_frame in E as ->;
    intros H; inversion H; now split.
Qed.

Lemma for_each_segment_lines_inv p (l : list segment) w v w' old :
  for_each l (fun sg => f_write env p (TranscribeAudio.segment_line sg)) w
  = (Return v, w') ->
  files w !! p = Some old ->
  w' = set_files w
         (<[p := old +:+ Shape.concat_lines
                          (map TranscribeAudio.segment_line l)]> (files w)).
Proof.
  revert w old. induction l as [| sg l IH]; intros w old H Hp.
  - injection H as _ <-. simpl.
    rewrite app_empty_r, insert_id by exact Hp. now rewrite set_files_same.
  - cbn [for_each] in H.
    apply bind_Return_inv in H as (u & w1 & Hw & H).
    apply f_write_Return_inv in Hw as ->. rewrite Hp in H. cbn [default] in H.
    apply (IH _ (old +:+ TranscribeAudio.segment_line sg)) in H;
      [| unfold set_files; simpl; apply lookup_insert_eq].
    rewrite H. unfold set_files; simpl. rewrite insert_insert_eq.
    do 2 f_equal. unfold Shape.concat_lines. simpl. apply app_assoc_str.
Qed.

End FileInversion.

(** ** What is returned has been written *)
Section ReturnedIsWritten.
Context (env : Env).

Lemma mkdir_Return_inv p w v w' :
  mkdir env p w = (Return v, w') -> w' = w.
Proof. apply guard_fault_Return_inv. Qed.

Lemma write_summary_inv input_file output_dir summary w s w' :
  SummarizeText.write_summary env input_file output_dir summary w
  = (Return (Some s), w') ->
  summary = Some s
  /\ String.eqb s "" = false
  /\ files w' !! SummarizeText.summary_file_path input_file output_dir = Some s.
Proof.
  unfold SummarizeText.write_summary, truthy.
  destruct summary as [t |]; [| discriminate].
  destruct (String.eqb t "") eqn:Ht; cbn [negb]; [discriminate |].
  intros H.
  apply bind_Return_inv in H as (u & w1 & Hw & H).
  apply write_text_Return_inv in Hw as ->.
  rewrite bind_print in H. injection H as <- <-.
  repeat split; [exact Ht |]. cbn [files set_files]. apply lookup_insert_eq.
Qed.

Lemma write_blog_inv input_file output_dir title blog_content w s w' :
  GenerateBlog.write_blog env input_file output_dir title blog_content w
  = (Return (Some s), w') ->
  blog_content = Some s
  /\ String.eqb s "" = false
  /\ files w' !! GenerateBlog.blog_file_path input_file output_dir title
     = Some s.
Proof.
  unfold GenerateBlog.write_blog, truthy.
  destruct blog_content as [t |]; [| discriminate].
  destruct (String.eqb t "") eqn:Ht; cbn [negb]; [discriminate |].
  intros H.
  apply bind_Return_inv in H as (u & w1 & Hw & H).
  apply write_text_Return_inv in Hw as ->.
  rewrite bind_print in H. injection H as <- <-.
  repeat split; [exact Ht |]. cbn [files set_files]. apply lookup_insert_eq.
Qed.

End ReturnedIsWritten.

(** A summary returned by [summarize_text], read backwards. *)
Lemma summarize_text_Some_inv env input_file output_dir method max_length
    w s w' :
  SummarizeText.summarize_text env input_file output_dir method max_length w
  = (Return (Some s), w') ->
  s <> ""
  /\ (method = "transformers" \/ method = "openai")
  /\ is_Some (files w !! input_file)
  /\ files w' !! os_path_join output_dir
                   (path_stem input_file +:+ "_summary.txt")
     = Some s.
Proof.
  intros E. unfold SummarizeText.summarize_text in E.
  apply bind_Return_inv in E as (u & w1 & Hmk & E).
  apply mkdir_Return_inv in Hmk as ->.
  apply bind_Return_inv in E as (read & w2 & Hread & E).
  assert (Hin : is_Some (files w !! input_file)).
  { destruct read as [text |]; [| discriminate E].
    apply try_except_Some_inv in Hread.
    apply bind_Return_inv in Hread as (content & w3 & Hr & _).
    apply read_text_Return_inv in Hr. eauto. }
  destruct read as [text |]; [| discriminate E].
  assert (Hwritten :
            forall summary w3,
              SummarizeText.write_summary env input_file output_dir summary w3
              = (Return (Some s), w') ->
              s <> "" /\ files w' !! os_path_join output_dir
                                    (path_stem input_file +:+ "_summary.txt")
                         = Some s).
  { intros summary w3 H. apply write_summary_inv in H as (_ & Hne & Hf).
    split; [| exact Hf]. intros ->. discriminate Hne. }
  destruct (String.eqb_spec method "transformers") as [-> | Hm1].
  - destruct (negb (SummarizeText.TRANSFORMERS_AVAILABLE env)); [discriminate E |].
    apply bind_Return_inv in E as (summary & w3 & _ & E).
    destruct (Hwritten _ _ E) as [Hne Hf]. auto.
  - destruct (String.eqb_spec method "openai") as [-> | Hm2]; [| discriminate E].
    destruct (negb (SummarizeText.OPENAI_AVAILABLE env)); [discriminate E |].
    apply bind_Return_inv in E as (summary & w3 & _ & E).
    destruct (Hwritten _ _ E) as [Hne Hf]. auto.
Qed.

(** X1. Whenever [summarize_text] returns a summary, in any environment,
    the summary is not empty, the method was one of the two it knows, the
    input file was there, and the file [<stem>_summary.txt] of the output
    directory holds exactly the summary returned. *)
Theorem summarize_text_returns_what_it_wrote :
  forall env input_file output_dir method max_length w s,
    fst (SummarizeText.summarize_text env input_file output_dir method
           max_length w) = Return (Some s) ->
    s <> ""
    /\ (method = "transformers" \/ method = "openai")
    /\ is_Some (files w !! input_file)
    /\ files (snd (SummarizeText.summarize_text env input_file output_dir
                     method max_length w))
         !! os_path_join output_dir (path_stem input_file +:+ "_summary.txt")
       = Some s.
Proof.
  intros env input_file output_dir method max_length w s.
  destruct (SummarizeText.summarize_text env input_file output_dir method
              max_length w) as [r w'] eqn:E.
  cbn [fst snd]. intros ->.
  now apply (summarize_text_Some_inv env input_file output_dir method
               max_length w s w').
Qed.

Lemma summarize_text_returns_what_it_wrote_witness :
  let run :=
    SummarizeText.summarize_text Scenario.env_ok "summaries/abc123_summary.txt"
      "./summaries" "transformers" 150 Scenario.summary_world in
  "A greeting and a farewell." <> ""
  /\ ("transformers" = "transformers" \/ "transformers" = "openai")
  /\ is_Some (files Scenario.summary_world !! "summaries/abc123_summary.txt")
  /\ files (snd run)
       !! os_path_join "./summaries"
            (path_stem "summaries/abc123_summary.txt" +:+ "_summary.txt")
     = Some "A greeting and a farewell.".
Proof.
  apply (summarize_text_returns_what_it_wrote Scenario.env_ok
           "summaries/abc123_summary.txt" "./summaries" "transformers" 150
           Scenario.summary_world "A greeting and a farewell.").
  reflexivity.
Defined.

(** A blog text returned by [generate_blog], read backwards. *)
Lemma generate_blog_Some_inv env input_file output_dir title method video_url
    w s w' :
  GenerateBlog.generate_blog env input_file output_dir title method video_url w
  = (Return (Some s), w') ->
  s <> ""
  /\ is_Some (files w !! input_file)
  /\ files w' !! GenerateBlog.blog_file_path input_file output_dir title
     = Some s.
Proof.
  intros E. unfold GenerateBlog.generate_blog in E.
  apply bind_Return_inv in E as (u & w1 & Hmk & E).
  apply mkdir_Return_inv in Hmk as ->.
  apply bind_Return_inv in E as (read & w2 & Hread & E).
  assert (Hin : is_Some (files w !! input_file)).
  { destruct read as [text |]; [| discriminate E].
    apply try_except_Some_inv in Hread.
    apply bind_Return_inv in Hread as (content & w3 & Hr & _).
    apply read_text_Return_inv in Hr. eauto. }
  destruct read as [summary |]; [| discriminate E].
  assert (Hwritten :
            forall blog_content w3,
              GenerateBlog.write_blog env input_file output_dir title
                blog_content w3 = (Return (Some s), w') ->
              s <> "" /\ files w' !! GenerateBlog.blog_file_path input_file
                                    output_dir title = Some s).
  { intros blog_content w3 H. apply write_blog_inv in H as (_ & Hne & Hf).
    split; [| exact Hf]. intros ->. discriminate Hne. }
  destruct (String.eqb method "openai").
  - destruct (negb (GenerateBlog.OPENAI_AVAILABLE env)); [discriminate E |].
    apply bind_Return_inv in E as (blog_content & w3 & _ & E).
    destruct (Hwritten _ _ E) as [Hne Hf]. auto.
  - apply bind_Return_inv in E as (blog_content & w3 & _ & E).
    destruct (Hwritten _ _ E) as [Hne Hf]. auto.
Qed.

(** X2. Whenever [generate_blog] returns a blog text, in any environment
    and for any method, the text is not empty, the input file was there,
    and the blog file holds exactly the text returned.  The blog file is
    named after the title or, without a title, after the input file, whose
    name is then taken without the micro sign and y with diaeresis (their
    title case is not a code point below 256). *)
Theorem generate_blog_returns_what_it_wrote :
  forall env input_file output_dir title method video_url w s,
    fst (GenerateBlog.generate_blog env input_file output_dir title method
           video_url w) = Return (Some s) ->
    title <> "" \/ title_fits (path_stem input_file) = true ->
    s <> ""
    /\ is_Some (files w !! input_file)
    /\ files (snd (GenerateBlog.generate_blog env input_file output_dir title
                     method video_url w))
         !! GenerateBlog.blog_file_path input_file output_dir title
       = Some s.
Proof.
  intros env input_file output_dir title method video_url w s.
  destruct (GenerateBlog.generate_blog env input_file output_dir title method
              video_url w) as [r w'] eqn:E.
  cbn [fst snd]. intros -> _.
  now apply (generate_blog_Some_inv env input_file output_dir title method
               video_url w s w').
Qed.

Lemma generate_blog_returns_what_it_wrote_witness :
  let run :=
    GenerateBlog.generate_blog Scenario.env_ok "summaries/abc123_summary.txt"
      "./blogs" "" "openai" "" Scenario.summary_world in
  "A post." <> ""
  /\ is_Some (files Scenario.summary_world !! "summaries/abc123_summary.txt")
  /\ files (snd run)
       !! GenerateBlog.blog_file_path "summaries/abc123_summary.txt" "./blogs" ""
     = Some "A post.".
Proof.
  apply (generate_blog_returns_what_it_wrote Scenario.env_ok
           "summaries/abc123_summary.txt" "./blogs" "" "openai" ""
           Scenario.summary_world "A post.").
  - reflexivity.
  - right. reflexivity.
Defined.

(** A result returned by [transcribe_audio], read backwards. *)
Lemma transcribe_audio_Some_inv env audio_file model_size output_dir w res w' :
  TranscribeAudio.transcribe_audio env audio_file model_size output_dir w
  = (Return (Some res), w') ->
  files w' !! os_path_join output_dir
                (path_stem audio_file +:+ "_transcript.txt")
  = Some (text res)
  /\ files w' !! os_path_join output_dir
                   (path_stem audio_file +:+ "_segments.txt")
     = Some (Shape.concat_lines
               (map TranscribeAudio.segment_line (segments res))).
Proof.
  intros E. unfold TranscribeAudio.transcribe_audio in E.
  apply bind_Return_inv in E as (u & w1 & Hmk & E).
  apply mkdir_Return_inv in Hmk as ->.
  rewrite bind_print in E.
  apply bind_Return_inv in E as (model & w2 & _ & E).
  apply try_except_Some_inv in E.
  rewrite bind_print in E.
  apply bind_Return_inv in E as (result & w3 & _ & E).
  apply bind_Return_inv in E as (u1 & w4 & Hw & E).
  apply write_text_Return_inv in Hw as ->.
  apply bind_Return_inv in E as (u2 & w5 & Ho & E).
  apply open_w_Return_inv in Ho as ->.
  apply bind_Return_inv in E as (u3 & w6 & Hl & E).
  apply (for_each_segment_lines_inv env _ _ _ _ _ "") in Hl;
    [| unfold set_files; simpl; apply lookup_insert_eq].
  subst w6. rewrite !bind_print in E. injection E as <- <-.
  unfold set_files; cbn [files]. rewrite insert_insert_eq.
  split.
  - fold (TranscribeAudio.transcript_file_path audio_file output_dir).
    fold (TranscribeAudio.segments_file_path audio_file output_dir).
    rewrite lookup_insert_ne
      by (apply not_eq_sym, transcript_segments_differ).
    apply lookup_insert_eq.
  - apply lookup_insert_eq.
Qed.

(** C9 (amended). For every transcription that succeeds, that is whenever
    [transcribe_audio] returns its result, the file [<stem>_segments.txt]
    next to the transcript is the records of the segments, one for each
    segment and in their order.  The record of a segment is
    [[start - end]: text] and a line feed, where start and end are numerals
    with exactly two decimal places that denote the timestamps of the
    segment rounded to a nearest hundredth ([nan], [inf] or [-inf] for a
    timestamp that is not a number).  When the timestamps are numbers and no
    text holds a line feed, the records are the lines of the file. *)
Theorem segments_file_lines :
  forall env audio_file model_size output_dir w res,
    let run :=
      TranscribeAudio.transcribe_audio env audio_file model_size output_dir w in
    fst run = Return (Some res) ->
    exists records : list string,
      files (snd run)
        !! os_path_join output_dir (path_stem audio_file +:+ "_segments.txt")
      = Some (Shape.concat_lines records)
      /\ Forall2 Shape.segment_record (segments res) records
      /\ (forallb Shape.plain_segment (segments res) = true ->
          Shape.file_lines (Shape.concat_lines records) = records).
Proof.
  intros env audio_file model_size output_dir w res run. subst run.
  destruct (TranscribeAudio.transcribe_audio env audio_file model_size
              output_dir w) as [r w'] eqn:E.
  cbn [fst snd]. intros ->.
  apply transcribe_audio_Some_inv in E as [_ Hsegments].
  exists (map TranscribeAudio.segment_line (segments res)).
  split; [exact Hsegments |]. clear. split.
  - induction (segments res) as [| sg l IH]; simpl;
      [constructor | constructor; [apply segment_line_record | exact IH]].
  - intros Hplain. apply file_lines_concat.
    induction (segments res) as [| sg l IH]; simpl.
    + constructor.
    + simpl in Hplain. apply andb_true_iff in Hplain as [Hsg Hl].
      constructor; [now apply segment_line_one_line | now apply IH].
Qed.

Lemma segments_file_lines_witness :
  let run :=
    TranscribeAudio.transcribe_audio Scenario.env_ok "downloads/talk.wav"
      "base" "./transcriptions" Scenario.empty_world in
  exists records : list string,
    files (snd run) !! "./transcriptions/talk_segments.txt"
    = Some (Shape.concat_lines records)
    /\ Forall2 Shape.segment_record (segments Scenario.talk) records
    /\ Shape.file_lines (Shape.concat_lines records) = records.
Proof.
  destruct (segments_file_lines Scenario.env_ok "downloads/talk.wav" "base"
              "./transcriptions" Scenario.empty_world Scenario.talk eq_refl)
    as (records & Hfile & Hrec & Hlines).
  exists records. repeat split; [exact Hfile | exact Hrec |].
  apply Hlines. reflexivity.
Defined.

(** C8 (as stated, refuted). The transcript of source [abc123] under the
    root [out] and the stage directory [transcribe] is not at
    [out/transcribe/abc123.txt], and the path of the blog changes with the
    title argument, the source and the stage being the same. *)
Lemma artifact_path_is_not_the_layout :
  TranscribeAudio.transcript_file_path "downloads/abc123.wav" "out/transcribe"
  = "out/transcribe/abc123_transcript.txt"
  /\ TranscribeAudio.transcript_file_path "downloads/abc123.wav" "out/transcribe"
     <> ArtifactStore.layout_path "out" "transcribe" "abc123" "txt"
  /\ GenerateBlog.blog_file_path "summaries/abc123_summary.txt" "out/blog"
       "My Post"
     <> GenerateBlog.blog_file_path "summaries/abc123_summary.txt" "out/blog" "".
Proof. repeat split; discriminate. Qed.

(** C8 (amended). The path of a persisted artifact is a function of the
    arguments of its stage.  Whenever a stage function returns its result,
    with any method and in any environment, the artifact is in the output
    directory: the transcript at [<stem>_transcript.txt] and the segments at
    [<stem>_segments.txt], the summary at [<stem>_summary.txt], with
    [<stem>] the stem of the input file; the blog at [<name>_blog.md], where
    [<name>] is the title argument in lower case with spaces and slashes
    replaced by underscores or, without a title, the stem without
    [_summary], its underscores read as spaces, in title case and then
    treated the same way. *)
Theorem artifacts_at_suffixed_paths :
  forall env,
    (forall audio_file model_size output_dir w res,
        let run :=
          TranscribeAudio.transcribe_audio env audio_file model_size
            output_dir w in
        fst run = Return (Some res) ->
        files (snd run)
          !! os_path_join output_dir
               (path_stem audio_file +:+ "_transcript.txt")
        = Some (text res)
        /\ is_Some (files (snd run)
                      !! os_path_join output_dir
                           (path_stem audio_file +:+ "_segments.txt")))
    /\ (forall input_file output_dir method max_length w summary,
          let run :=
            SummarizeText.summarize_text env input_file output_dir method
              max_length w in
          fst run = Return (Some summary) ->
          files (snd run)
            !! os_path_join output_dir
                 (path_stem input_file +:+ "_summary.txt")
          = Some summary)
    /\ (forall input_file output_dir title method video_url w blog,
          let run :=
            GenerateBlog.generate_blog env input_file output_dir title method
              video_url w in
          fst run = Return (Some blog) ->
          title <> "" ->
          files (snd run)
            !! os_path_join output_dir
                 (replace "/" "_" (replace " " "_" (lower title))
                  +:+ "_blog.md")
          = Some blog)
    /\ (forall input_file output_dir method video_url w blog,
          let run :=
            GenerateBlog.generate_blog env input_file output_dir "" method
              video_url w in
          fst run = Return (Some blog) ->
          title_fits (path_stem input_file) = true ->
          files (snd run)
            !! os_path_join output_dir
                 (replace "/" "_"
                    (replace " " "_"
                       (lower
                          (title
                             (replace "_" " "
                                (replace "_summary" ""
                                   (path_stem input_file))))))
                  +:+ "_blog.md")
          = Some blog).
Proof.
  intros env. split; [| split; [| split]].
  - intros audio_file model_size output_dir w res run. subst run.
    destruct (TranscribeAudio.transcribe_audio env audio_file model_size
                output_dir w) as [r w'] eqn:E.
    cbn [fst snd]. intros ->.
    apply transcribe_audio_Some_inv in E as [Ht Hs]. eauto.
  - intros input_file output_dir method max_length w summary run. subst run.
    destruct (SummarizeText.summarize_text env input_file output_dir method
                max_length w) as [r w'] eqn:E.
    cbn [fst snd]. intros ->.
    now apply summarize_text_Some_inv in E as (_ & _ & _ & Hf).
  - intros input_file output_dir title method video_url w blog run. subst run.
    destruct (GenerateBlog.generate_blog env input_file output_dir title
                method video_url w) as [r w'] eqn:E.
    cbn [fst snd]. intros -> Htitle.
    apply generate_blog_Some_inv in E as (_ & _ & Hf).
    unfold GenerateBlog.blog_file_path in Hf.
    destruct (String.eqb_spec title ""); [contradiction | exact Hf].
  - intros input_file output_dir method video_url w blog run. subst run.
    destruct (GenerateBlog.generate_blog env input_file output_dir ""
                method video_url w) as [r w'] eqn:E.
    cbn [fst snd]. intros -> _.
    now apply generate_blog_Some_inv in E as (_ & _ & Hf).
Qed.

Lemma artifacts_at_suffixed_paths_witness :
  files (snd (TranscribeAudio.transcribe_audio Scenario.env_ok
                "downloads/talk.wav" "base" "./transcriptions"
                Scenario.empty_world))
    !! "./transcriptions/talk_transcript.txt"
  = Some (text Scenario.talk)
  /\ files (snd (SummarizeText.summarize_text Scenario.env_ok
                   "summaries/abc123_summary.txt" "./summaries" "openai"
                   150 Scenario.summary_world))
       !! "./summaries/abc123_summary_summary.txt"
     = Some "A post."
  /\ files (snd (GenerateBlog.generate_blog Scenario.env_ok
                   "summaries/abc123_summary.txt" "./blogs" "My Post"
                   "openai" "" Scenario.summary_world))
       !! "./blogs/my_post_blog.md"
     = Some "A post."
  /\ files (snd (GenerateBlog.generate_blog Scenario.env_ok
                   "summaries/abc123_summary.txt" "./blogs" ""
                   "openai" "" Scenario.summary_world))
       !! "./blogs/abc123_blog.md"
     = Some "A post.".
Proof.
  destruct (artifacts_at_suffixed_paths Scenario.env_ok)
    as (Htranscript & Hsummary & Htitle & Hstem).
  split; [| split; [| split]].
  - apply (Htranscript "downloads/talk.wav" "base" "./transcriptions"
             Scenario.empty_world Scenario.talk). reflexivity.
  - apply (Hsummary "summaries/abc123_summary.txt" "./summaries" "openai" 150
             Scenario.summary_world "A post."). reflexivity.
  - apply (Htitle "summaries/abc123_summary.txt" "./blogs" "My Post" "openai"
             "" Scenario.summary_world "A post."); [reflexivity | discriminate].
  - apply (Hstem "summaries/abc123_summary.txt" "./blogs" "openai" ""
             Scenario.summary_world "A post."); reflexivity.
Defined.

(** X3. Whenever [transcribe_audio] returns a result, in any environment,
    the transcript file holds exactly the text of the result and the
    segments file holds exactly one formatted line per segment of the
    result, in order. *)
Theorem transcribe_audio_returns_what_it_wrote :
  forall env audio_file model_size output_dir w res,
    fst (TranscribeAudio.transcribe_audio env audio_file model_size output_dir
           w) = Return (Some res) ->
    let after :=
      files (snd (TranscribeAudio.transcribe_audio env audio_file model_size
                    output_dir w)) in
    after !! os_path_join output_dir
               (path_stem audio_file +:+ "_transcript.txt")
    = Some (text res)
    /\ after !! os_path_join output_dir
                  (path_stem audio_file +:+ "_segments.txt")
       = Some (Shape.concat_lines
                 (map TranscribeAudio.segment_line (segments res))).
Proof.
  intros env audio_file model_size output_dir w res. cbv zeta.
  destruct (TranscribeAudio.transcribe_audio env audio_file model_size
              output_dir w) as [r w'] eqn:E.
  cbn [fst snd]. intros ->.
  now apply (transcribe_audio_Some_inv env audio_file model_size output_dir
               w res w').
Qed.

Lemma transcribe_audio_returns_what_it_wrote_witness :
  let after :=
    files (snd (TranscribeAudio.transcribe_audio Scenario.env_ok
                  "downloads/talk.wav" "base" "./transcriptions"
                  Scenario.empty_world)) in
  after !! os_path_join "./transcriptions"
             (path_stem "downloads/talk.wav" +:+ "_transcript.txt")
  = Some (text Scenario.talk)
  /\ after !! os_path_join "./transcriptions"
                (path_stem "downloads/talk.wav" +:+ "_segments.txt")
     = Some (Shape.concat_lines
               (map TranscribeAudio.segment_line (segments Scenario.talk))).
Proof.
  apply (transcribe_audio_returns_what_it_wrote Scenario.env_ok
           "downloads/talk.wav" "base" "./transcriptions" Scenario.empty_world
           Scenario.talk).
  reflexivity.
Defined.

(** X4. [download_video] reports a file only after the whole sequence of
    calls: whenever it returns a file name, the downloader was constructed,
    [extract_info] was called on the URL without downloading, the name is
    the one [prepare_filename] gave for that info, and [download] was then
    called on the URL; these four calls, in this order, are all it added to
    the trace. *)
Theorem download_video_reports_after_download :
  forall env url output_dir audio_only w filename,
    fst (DownloadVideo.download_video env url output_dir audio_only w)
    = Return (Some filename) ->
    let opts := DownloadVideo.ydl_options output_dir audio_only in
    exists info fs,
      fst (ydl_prepare_filename env opts info fs) = Return filename
      /\ calls (snd (DownloadVideo.download_video env url output_dir
                       audio_only w))
         = calls w ++ [YoutubeDL opts; extract_info url false;
                       prepare_filename info; download [url]].
Proof.
  intros env url output_dir audio_only w filename. cbv zeta.
  destruct (DownloadVideo.download_video env url output_dir audio_only w)
    as [r w'] eqn:E.
  cbn [fst snd]. intros ->.
  set (opts := DownloadVideo.ydl_options output_dir audio_only).
  unfold DownloadVideo.download_video in E. fold opts in E.
  apply bind_Return_inv in E as (u & w1 & Hmk & E).
  apply mkdir_Return_inv in Hmk as ->.
  apply try_except_Some_inv in E.
  apply bind_Return_inv in E as (u1 & w2 & Hc & E).
  apply call_ext_Return_inv in Hc as (fs1 & _ & ->).
  apply bind_Return_inv in E as (info & w3 & Hi & E).
  apply call_ext_Return_inv in Hi as (fs2 & _ & ->).
  apply bind_Return_inv in E as (name & w4 & Hp & E).
  apply call_ext_Return_inv in Hp as (fs3 & Hp & ->).
  apply bind_Return_inv in E as (code & w5 & Hd & E).
  apply call_ext_Return_inv in Hd as (fs4 & _ & ->).
  rewrite bind_print in E. injection E as -> <-.
  exists info, fs2. cbn [files calls] in *.
  split; [now rewrite Hp |].
  now rewrite <- !app_assoc.
Qed.

Lemma download_video_reports_after_download_witness :
  let opts := DownloadVideo.ydl_options "./downloads" true in
  exists info fs,
    fst (ydl_prepare_filename Scenario.env_ok opts info fs)
    = Return "./downloads/talk.mp4"
    /\ calls (snd (DownloadVideo.download_video Scenario.env_ok
                     "https://www.youtube.com/watch?v=dQw4w9WgXcQ"
                     "./downloads" true Scenario.empty_world))
       = calls Scenario.empty_world
         ++ [YoutubeDL opts;
             extract_info "https://www.youtube.com/watch?v=dQw4w9WgXcQ" false;
             prepare_filename info;
             download ["https://www.youtube.com/watch?v=dQw4w9WgXcQ"]].
Proof.
  apply (download_video_reports_after_download Scenario.env_ok
           "https://www.youtube.com/watch?v=dQw4w9WgXcQ" "./downloads" true
           Scenario.empty_world "./downloads/talk.mp4").
  reflexivity.
Defined.

(** ** Refusals of [summarize_text] and [generate_blog] *)

(** The guarded read of an input file that can be opened. *)
Lemma guarded_read_run env input_file w :
  fs_fault env (OpenRead input_file) = None ->
  try_except
    (let* content := read_text env input_file in ret (Some (strip content)))
    (fun e => print ("Error reading input file: " +:+ str_exn e) ;; ret None)
    w
  = match files w !! input_file with
    | Some content => (Return (Some (strip content)), w)
    | None =>
        (Return None,
         {| files := files w;
            stdout :=
              stdout w
              ++ ["Error reading input file: [Errno 2] No such file or directory: "
                  +:+ repr input_file];
            calls := calls w |})
    end.
Proof.
  intros Hr. unfold try_except, bind at 1, read_text, bind at 1.
  rewrite (guard_fault_ok env _ _ Hr).
  destruct (files w !! input_file); reflexivity.
Qed.

(** X5. A method that [summarize_text] does not know is refused: once the
    output directory is made and the read is not prevented by the disk,
    the result is [None], no library is called and no file is written or
    changed, whether the input file exists or not. *)
Theorem summarize_text_unknown_method :
  forall env input_file output_dir method max_length w,
    fs_fault env (Mkdir output_dir) = None ->
    fs_fault env (OpenRead input_file) = None ->
    method <> "transformers" ->
    method <> "openai" ->
    let run :=
      SummarizeText.summarize_text env input_file output_dir method max_length
        w in
    fst run = Return None
    /\ calls (snd run) = calls w
    /\ files (snd run) = files w.
Proof.
  intros env input_file output_dir method max_length w Hm Hr H1 H2 run.
  subst run.
  destruct (SummarizeText.summarize_text env input_file output_dir method
              max_length w) as [r w'] eqn:E.
  unfold SummarizeText.summarize_text in E.
  rewrite bind_mkdir in E by exact Hm.
  unfold bind at 1 in E. rewrite guarded_read_run in E by exact Hr.
  destruct (files w !! input_file) as [content |].
  - destruct (String.eqb_spec method "transformers") as [-> | _];
      [congruence |].
    destruct (String.eqb_spec method "openai") as [-> | _]; [congruence |].
    rewrite bind_print in E. injection E as <- <-. repeat split.
  - injection E as <- <-. repeat split.
Qed.

Lemma summarize_text_unknown_method_witness :
  let run :=
    SummarizeText.summarize_text Scenario.env_ok "summaries/abc123_summary.txt"
      "./summaries" "bart" 150 Scenario.summary_world in
  fst run = Return None
  /\ calls (snd run) = calls Scenario.summary_world
  /\ files (snd run) = files Scenario.summary_world.
Proof.
  apply (summarize_text_unknown_method Scenario.env_ok
           "summaries/abc123_summary.txt" "./summaries" "bart" 150
           Scenario.summary_world); [reflexivity | reflexivity | | ];
    discriminate.
Defined.

(** X6. An input file that does not exist makes [summarize_text] and
    [generate_blog] return [None] after printing the error of the read,
    which ends with [repr] of the file name: no library is called and no
    file is written, whatever the method; the output directory has been made
    before the read. *)
Theorem missing_input_returns_None :
  forall env input_file output_dir w,
    fs_fault env (Mkdir output_dir) = None ->
    fs_fault env (OpenRead input_file) = None ->
    files w !! input_file = None ->
    let after :=
      {| files := files w;
         stdout :=
           stdout w
           ++ ["Error reading input file: [Errno 2] No such file or directory: "
               +:+ repr input_file];
         calls := calls w |} in
    (forall method max_length,
        SummarizeText.summarize_text env input_file output_dir method
          max_length w = (Return None, after))
    /\ (forall title method video_url,
          GenerateBlog.generate_blog env input_file output_dir title method
            video_url w = (Return None, after)).
Proof.
  intros env input_file output_dir w Hm Hr Hf after. subst after. split.
  - intros method max_length. unfold SummarizeText.summarize_text.
    rewrite bind_mkdir by exact Hm.
    unfold bind at 1. rewrite guarded_read_run by exact Hr.
    now rewrite Hf.
  - intros title method video_url. unfold GenerateBlog.generate_blog.
    rewrite bind_mkdir by exact Hm.
    unfold bind at 1. rewrite guarded_read_run by exact Hr.
    now rewrite Hf.
Qed.

Lemma missing_input_returns_None_witness :
  let after :=
    {| files := ∅;
       stdout :=
         ["Error reading input file: [Errno 2] No such file or directory: "
          +:+ quote +:+ "summaries/it's_summary.txt" +:+ quote];
       calls := [] |} in
  (forall method max_length,
      SummarizeText.summarize_text Scenario.env_ok
        "summaries/it's_summary.txt" "./summaries" method max_length
        Scenario.empty_world = (Return None, after))
  /\ (forall title method video_url,
        GenerateBlog.generate_blog Scenario.env_ok
          "summaries/it's_summary.txt" "./blogs" title method video_url
          Scenario.empty_world = (Return None, after)).
Proof.
  destruct (missing_input_returns_None Scenario.env_ok
              "summaries/it's_summary.txt" "./summaries"
              Scenario.empty_world eq_refl eq_refl eq_refl) as [Hs _].
  destruct (missing_input_returns_None Scenario.env_ok
              "summaries/it's_summary.txt" "./blogs"
              Scenario.empty_world eq_refl eq_refl eq_refl) as [_ Hb].
  split; [exact Hs | exact Hb].
Defined.

(** X7. There is no fallback inside [generate_blog]: with the method
    [openai] and openai not installed, it prints the installation hint and
    returns [None]; the API is not called, the template is not used and no
    blog file is written. *)
Theorem generate_blog_openai_missing_no_fallback :
  forall env input_file output_dir title video_url w content,
    fs_fault env (Mkdir output_dir) = None ->
    fs_fault env (OpenRead input_file) = None ->
    files w !! input_file = Some content ->
    openai_installed env = false ->
    GenerateBlog.generate_blog env input_file output_dir title "openai"
      video_url w
    = (Return None,
       {| files := files w;
          stdout :=
            stdout w ++ ["Error: openai not installed. Run: pip install openai"];
          calls := calls w |}).
Proof.
  intros env input_file output_dir title video_url w content Hm Hr Hf Hi.
  unfold GenerateBlog.generate_blog.
  rewrite bind_mkdir by exact Hm.
  unfold bind at 1. rewrite guarded_read_run by exact Hr. rewrite Hf.
  cbn [String.eqb Ascii.eqb Bool.eqb andb].
  unfold GenerateBlog.OPENAI_AVAILABLE. rewrite Hi. reflexivity.
Qed.

Lemma generate_blog_openai_missing_no_fallback_witness :
  GenerateBlog.generate_blog Scenario.env_no_openai
    "summaries/abc123_summary.txt" "./blogs" "" "openai" ""
    Scenario.summary_world
  = (Return None,
     {| files := files Scenario.summary_world;
        stdout :=
          stdout Scenario.summary_world
          ++ ["Error: openai not installed. Run: pip install openai"];
        calls := calls Scenario.summary_world |}).
Proof.
  apply (generate_blog_openai_missing_no_fallback Scenario.env_no_openai
           "summaries/abc123_summary.txt" "./blogs" "" ""
           Scenario.summary_world "  A greeting and a farewell.");
    reflexivity.
Defined.

(** X8. [generate_blog] compares the method with [openai] only: every
    other method, a misspelt one included, runs exactly as [template]. *)
Theorem generate_blog_other_method_is_template :
  forall env input_file output_dir title method video_url w,
    method <> "openai" ->
    GenerateBlog.generate_blog env input_file output_dir title method
      video_url w
    = GenerateBlog.generate_blog env input_file output_dir title "template"
        video_url w.
Proof.
  intros env input_file output_dir title method video_url w Hm.
  unfold GenerateBlog.generate_blog.
  destruct (String.eqb_spec method "openai") as [-> | _]; [congruence |].
  reflexivity.
Qed.

Lemma generate_blog_other_method_is_template_witness :
  GenerateBlog.generate_blog Scenario.env_ok "summaries/abc123_summary.txt"
    "./blogs" "" "opnai" "" Scenario.summary_world
  = GenerateBlog.generate_blog Scenario.env_ok "summaries/abc123_summary.txt"
      "./blogs" "" "template" "" Scenario.summary_world.
Proof.
  apply (generate_blog_other_method_is_template Scenario.env_ok
           "summaries/abc123_summary.txt" "./blogs" "" "opnai" ""
           Scenario.summary_world).
  discriminate.
Defined.

(** X9. With a method other than [openai], the run of [generate_blog]
    depends on the environment only through the disk faults and the date:
    two environments that agree on these give the same result and the same
    world, whatever they say about openai and the other libraries. *)
Theorem generate_blog_template_ignores_libraries :
  forall env env' input_file output_dir title method video_url w,
    method <> "openai" ->
    fs_fault env' = fs_fault env ->
    today env' = today env ->
    GenerateBlog.generate_blog env' input_file output_dir title method
      video_url w
    = GenerateBlog.generate_blog env input_file output_dir title method
        video_url w.
Proof.
  intros env env' input_file output_dir title method video_url w Hm Hf Ht.
  apply generate_blog_template_env; [| exact Hf | exact Ht].
  now destruct (String.eqb_spec method "openai").
Qed.

Lemma generate_blog_template_ignores_libraries_witness :
  GenerateBlog.generate_blog Scenario.env_no_openai
    "summaries/abc123_summary.txt" "./blogs" "" "template" ""
    Scenario.summary_world
  = GenerateBlog.generate_blog Scenario2.env_backends_down
      "summaries/abc123_summary.txt" "./blogs" "" "template" ""
      Scenario.summary_world.
Proof.
  apply (generate_blog_template_ignores_libraries Scenario2.env_backends_down
           Scenario.env_no_openai "summaries/abc123_summary.txt" "./blogs" ""
           "template" "" Scenario.summary_world);
    [discriminate | reflexivity | reflexivity].
Defined.

(** X10. An empty summary is not persisted: when the API answers with a
    text that is empty once stripped, [summarize_text] with the method
    [openai] returns [None] and writes no summary file; the one call to the
    API, with the stripped input as the user message and [max_length] as
    the token limit, is all that happened. *)
Theorem summarize_text_empty_answer :
  forall env input_file output_dir max_length w content answer others fs1,
    fs_fault env (Mkdir output_dir) = None ->
    fs_fault env (OpenRead input_file) = None ->
    files w !! input_file = Some content ->
    openai_installed env = true ->
    let messages :=
      [("system", "You are a helpful assistant that creates concise summaries.");
       ("user",
        "Please summarize the following text:" +:+ nl +:+ nl +:+ strip content)]
    in
    openai_ChatCompletion_create env "gpt-3.5-turbo" messages max_length
      (files w) = (Return (answer :: others), fs1) ->
    strip answer = "" ->
    SummarizeText.summarize_text env input_file output_dir "openai" max_length w
    = (Return None,
       {| files := fs1;
          stdout := stdout w;
          calls :=
            calls w
            ++ [ChatCompletion_create "gpt-3.5-turbo" messages max_length] |}).
Proof.
  intros env input_file output_dir max_length w content answer others fs1
         Hm Hr Hf Hi messages Hapi Hempty.
  unfold SummarizeText.summarize_text.
  rewrite bind_mkdir by exact Hm.
  unfold bind at 1. rewrite guarded_read_run by exact Hr. rewrite Hf.
  cbn [String.eqb Ascii.eqb Bool.eqb andb].
  unfold SummarizeText.OPENAI_AVAILABLE. rewrite Hi. cbn [negb].
  erewrite bind_Return.
  2:{ unfold SummarizeText.summarize_with_openai.
      apply try_except_Return.
      unfold SummarizeText.OPENAI_AVAILABLE, imported. rewrite Hi.
      fold messages. call_returns Hapi. reflexivity. }
  rewrite Hempty. reflexivity.
Qed.

Lemma summarize_text_empty_answer_witness :
  let env :=
    {| fs_fault := fs_fault Scenario.env_ok;
       today := today Scenario.env_ok;
       transformers_installed := true;
       openai_installed := true;
       yt_dlp_YoutubeDL := yt_dlp_YoutubeDL Scenario.env_ok;
       ydl_extract_info := ydl_extract_info Scenario.env_ok;
       ydl_prepare_filename := ydl_prepare_filename Scenario.env_ok;
       ydl_download := ydl_download Scenario.env_ok;
       whisper_load_model := whisper_load_model Scenario.env_ok;
       model_transcribe := model_transcribe Scenario.env_ok;
       transformers_pipeline := transformers_pipeline Scenario.env_ok;
       summarizer_call := summarizer_call Scenario.env_ok;
       openai_ChatCompletion_create :=
         fun _ _ _ => Scenario.answers ["  " +:+ nl] |} in
  let messages :=
    [("system", "You are a helpful assistant that creates concise summaries.");
     ("user",
      "Please summarize the following text:" +:+ nl +:+ nl
      +:+ strip "  A greeting and a farewell.")] in
  SummarizeText.summarize_text env "summaries/abc123_summary.txt" "./summaries"
    "openai" 150 Scenario.summary_world
  = (Return None,
     {| files := files Scenario.summary_world;
        stdout := stdout Scenario.summary_world;
        calls :=
          calls Scenario.summary_world
          ++ [ChatCompletion_create "gpt-3.5-turbo" messages 150] |}).
Proof.
  intros env messages.
  apply (summarize_text_empty_answer env "summaries/abc123_summary.txt"
           "./summaries" 150 Scenario.summary_world
           "  A greeting and a farewell." ("  " +:+ nl) []
           (files Scenario.summary_world)); reflexivity.
Defined.

(** ** Failures of [transcribe_audio] after the model is loaded *)

(** X11. When [model.transcribe] raises an [Exception], [transcribe_audio]
    prints the error and returns [None], and it writes neither the
    transcript nor the segments file: the files are as the library left
    them. *)
Theorem transcribe_audio_decode_error_writes_nothing :
  forall env audio_file model_size output_dir w model fs1 cls msg fs2,
    fs_fault env (Mkdir output_dir) = None ->
    whisper_load_model env model_size (files w) = (Return model, fs1) ->
    model_transcribe env model audio_file fs1
    = (Raise (Exception cls msg), fs2) ->
    TranscribeAudio.transcribe_audio env audio_file model_size output_dir w
    = (Return None,
       {| files := fs2;
          stdout :=
            stdout w ++ ["Loading Whisper model: " +:+ model_size;
                         "Transcribing: " +:+ audio_file;
                         "Error transcribing audio: " +:+ msg];
          calls := calls w ++ [load_model model_size;
                               transcribe model audio_file] |}).
Proof.
  intros env audio_file model_size output_dir w model fs1 cls msg fs2
         Hm Hload Htr.
  unfold TranscribeAudio.transcribe_audio.
  rewrite bind_mkdir by exact Hm.
  rewrite bind_print.
  call_returns Hload.
  erewrite try_except_caught_print.
  2:{ rewrite bind_print. now call_raises Htr. }
  cbn [files stdout calls str_exn]. now rewrite <- !app_assoc.
Qed.

Lemma transcribe_audio_decode_error_writes_nothing_witness :
  TranscribeAudio.transcribe_audio Scenario2.env_backends_down
    "downloads/talk.wav" "base" "./transcriptions" Scenario.empty_world
  = (Return None,
     {| files := ∅;
        stdout :=
          stdout Scenario.empty_world
          ++ ["Loading Whisper model: base";
              "Transcribing: downloads/talk.wav";
              "Error transcribing audio: Failed to load audio"];
        calls := calls Scenario.empty_world
                 ++ [load_model "base"; transcribe "base" "downloads/talk.wav"]
     |}).
Proof.
  apply (transcribe_audio_decode_error_writes_nothing
           Scenario2.env_backends_down "downloads/talk.wav" "base"
           "./transcriptions" Scenario.empty_world "base" ∅ "RuntimeError"
           "Failed to load audio" ∅); reflexivity.
Defined.

(** X12. The two files of a transcription are not written together: when
    the transcript is written but the segments file cannot be opened,
    [transcribe_audio] returns [None] although the transcript file is
    already there, complete, and no segments file exists beside it unless
    there was one before. *)
Theorem transcribe_audio_segments_failure_keeps_transcript :
  forall env audio_file model_size output_dir w model fs1 res fs2 cls msg,
    let transcript_file :=
      os_path_join output_dir (path_stem audio_file +:+ "_transcript.txt") in
    let segments_file :=
      os_path_join output_dir (path_stem audio_file +:+ "_segments.txt") in
    fs_fault env (Mkdir output_dir) = None ->
    fs_fault env (OpenWrite transcript_file) = None ->
    fs_fault env (FileWrite transcript_file (text res)) = None ->
    fs_fault env (OpenWrite segments_file) = Some (Exception cls msg) ->
    whisper_load_model env model_size (files w) = (Return model, fs1) ->
    model_transcribe env model audio_file fs1 = (Return res, fs2) ->
    let run :=
      TranscribeAudio.transcribe_audio env audio_file model_size output_dir w in
    fst run = Return None
    /\ files (snd run) = <[transcript_file := text res]> fs2
    /\ files (snd run) !! segments_file = fs2 !! segments_file.
Proof.
  intros env audio_file model_size output_dir w model fs1 res fs2 cls msg
         transcript_file segments_file Hm Hot Hwt Hos Hload Htr run.
  assert (E : run
              = (Return None,
                 {| files := <[transcript_file := text res]> fs2;
                    stdout :=
                      (stdout w ++ ["Loading Whisper model: " +:+ model_size])
                      ++ ["Transcribing: " +:+ audio_file]
                      ++ ["Error transcribing audio: " +:+ msg];
                    calls := (calls w ++ [load_model model_size])
                             ++ [transcribe model audio_file] |})).
  { subst run. unfold TranscribeAudio.transcribe_audio.
    rewrite bind_mkdir by exact Hm.
    rewrite bind_print.
    call_returns Hload.
    erewrite try_except_caught_print.
    2:{ rewrite bind_print. call_returns Htr.
        fold (TranscribeAudio.transcript_file_path audio_file output_dir).
        unfold TranscribeAudio.transcript_file_path. fold transcript_file.
        rewrite bind_write_text by assumption.
        unfold TranscribeAudio.segments_file_path. fold segments_file.
        apply bind_Raise. unfold open_w. apply bind_Raise.
        unfold guard_fault. rewrite Hos. reflexivity. }
    cbn [files stdout calls str_exn set_files]. now rewrite <- !app_assoc. }
  rewrite E. cbn [fst snd files]. repeat split.
  apply lookup_insert_ne.
  apply (transcript_segments_differ audio_file output_dir).
Qed.

Lemma transcribe_audio_segments_failure_keeps_transcript_witness :
  let run :=
    TranscribeAudio.transcribe_audio Scenario2.env_segments_locked
      "downloads/talk.wav" "base" "./transcriptions" Scenario.empty_world in
  fst run = Return None
  /\ files (snd run)
     = <[os_path_join "./transcriptions"
           (path_stem "downloads/talk.wav" +:+ "_transcript.txt")
         := text Scenario.talk]> ∅
  /\ files (snd run)
       !! os_path_join "./transcriptions"
            (path_stem "downloads/talk.wav" +:+ "_segments.txt")
     = (∅ : gmap string string)
         !! os_path_join "./transcriptions"
              (path_stem "downloads/talk.wav" +:+ "_segments.txt").
Proof.
  apply (transcribe_audio_segments_failure_keeps_transcript
           Scenario2.env_segments_locked "downloads/talk.wav" "base"
           "./transcriptions" Scenario.empty_world "base" ∅ Scenario.talk ∅
           "PermissionError" "[Errno 13] Permission denied"); reflexivity.
Defined.



(** What the three runs of the example give when the libraries fail. *)
Example backends_down_give_None :
  fst (DownloadVideo.download_video Scenario2.env_backends_down
         "https://www.youtube.com/watch?v=dQw4w9WgXcQ" "./downloads" false
         Scenario.empty_world) = Return None
  /\ fst (SummarizeText.summarize_text Scenario2.env_backends_down
            "summaries/abc123_summary.txt" "./summaries" "transformers" 150
            Scenario.summary_world) = Return None
  /\ fst (GenerateBlog.generate_blog Scenario2.env_backends_down
            "summaries/abc123_summary.txt" "./blogs" "" "openai" ""
            Scenario.summary_world) = Return None.
Proof. repeat split. Qed.

(** ** The names of the artifact files *)
Section NameFacts.
Import Chars.

Lemma has_char_app c a b : has_char c (a +:+ b) = has_char c a || has_char c b.
Proof.
  induction a as [| d a IH]; [reflexivity |].
  rewrite app_cons. simpl. now rewrite IH, orb_assoc.
Qed.

Lemma split_slash_no_slash s cur :
  has_char slash cur = false ->
  Forall (fun c => has_char slash c = false) (split_slash cur s).
Proof.
  revert cur. induction s as [| c s IH]; intros cur Hcur; simpl.
  - now constructor.
  - destruct (Ascii.eqb_spec c slash) as [-> | Hc].
    + constructor; [exact Hcur | now apply IH].
    + apply IH. rewrite has_char_app, Hcur. cbn [has_char orb].
      rewrite orb_false_r. apply Ascii.eqb_neq. congruence.
Qed.

Lemma last_Forall {A : Type} (P : A -> Prop) l d :
  Forall P l -> P d -> P (List.last l d).
Proof.
  induction 1 as [| x l Hx Hl IH]; intros Hd; [exact Hd |].
  destruct l as [| y l]; [exact Hx |]. now apply IH.
Qed.

Lemma path_name_no_slash p : has_char slash (path_name p) = false.
Proof.
  unfold path_name. apply last_Forall; [| reflexivity].
  pose proof (split_slash_no_slash p "" eq_refl) as Hall.
  generalize dependent (split_slash "" p). intros l Hall.
  induction Hall as [| c l Hc Hall IH]; [constructor |].
  rewrite filter_cons. destruct (decide _); [constructor |]; assumption.
Qed.

Lemma substring_no_char c n s :
  has_char c s = false -> has_char c (String.substring 0 n s) = false.
Proof.
  revert n. induction s as [| d s IH]; intros [| n] H; try reflexivity.
  simpl in *. apply orb_false_iff in H as [Hd Hs].
  now rewrite Hd, IH.
Qed.

(** A stem is a single component: it holds no slash. *)
Lemma path_stem_no_slash p : has_char slash (path_stem p) = false.
Proof.
  unfold path_stem. pose proof (path_name_no_slash p) as H.
  destruct (rfind_dot 0 None (path_name p)) as [i |]; [| exact H].
  destruct ((0 <? i)%nat && (i <? String.length (path_name p) - 1)%nat);
    [now apply substring_no_char | exact H].
Qed.

(** Joining a directory and a name that does not start with a slash. *)
Lemma os_path_join_relative d name :
  startswith (String slash "") name = false ->
  os_path_join d name = d +:+ separator d +:+ name.
Proof.
  intros H. unfold os_path_join, separator. rewrite H.
  destruct (String.eqb d "" || endswith_char slash d)%bool; reflexivity.
Qed.

Lemma no_slash_relative name :
  has_char slash name = false -> startswith (String slash "") name = false.
Proof.
  destruct name as [| c name]; [reflexivity |]. simpl.
  intros H. apply orb_false_iff in H as [-> _]. reflexivity.
Qed.

(** Replacing one character by another is a map over the characters. *)
Lemma replace_one_char a b s :
  replace (String a "") (String b "") s
  = map_chars (fun c => if Ascii.eqb a c then b else c) s.
Proof.
  unfold replace. induction s as [| c s IH]; [reflexivity |].
  cbn [replace_from startswith map_chars String.length Nat.sub].
  rewrite andb_true_r. destruct (Ascii.eqb a c).
  - rewrite IH. reflexivity.
  - now rewrite IH.
Qed.

Lemma map_chars_no_char (f : ascii -> ascii) c s :
  (forall d, Ascii.eqb c (f d) = false) -> has_char c (map_chars f s) = false.
Proof.
  intros Hf. induction s as [| d s IH]; [reflexivity |].
  simpl. now rewrite Hf, IH.
Qed.

Lemma map_chars_keeps_no_char (f : ascii -> ascii) c s :
  (forall d, Ascii.eqb c d = false -> Ascii.eqb c (f d) = false) ->
  has_char c s = false -> has_char c (map_chars f s) = false.
Proof.
  intros Hf. induction s as [| d s IH]; [reflexivity |].
  simpl. intros H. apply orb_false_iff in H as [Hd Hs].
  now rewrite (Hf _ Hd), IH.
Qed.

End NameFacts.

(** X14. Every artifact is written directly in the output directory of its
    stage, whatever the input path or the title: the path of the
    transcript, of the segments, of the summary and of the blog is the
    output directory, a slash unless the directory is empty or ends with
    one, and a file name that holds no slash; the name of the blog file
    holds no space either. *)
Theorem artifacts_stay_in_output_dir :
  forall input_file output_dir title,
    (exists name,
        TranscribeAudio.transcript_file_path input_file output_dir
        = output_dir +:+ Chars.separator output_dir +:+ name
        /\ Chars.has_char slash name = false)
    /\ (exists name,
          TranscribeAudio.segments_file_path input_file output_dir
          = output_dir +:+ Chars.separator output_dir +:+ name
          /\ Chars.has_char slash name = false)
    /\ (exists name,
          SummarizeText.summary_file_path input_file output_dir
          = output_dir +:+ Chars.separator output_dir +:+ name
          /\ Chars.has_char slash name = false)
    /\ (exists name,
          GenerateBlog.blog_file_path input_file output_dir title
          = output_dir +:+ Chars.separator output_dir +:+ name
          /\ Chars.has_char slash name = false
          /\ Chars.has_char " " name = false).
Proof.
  intros input_file output_dir title.
  assert (Hstem : forall suffix,
             Chars.has_char slash suffix = false ->
             exists name,
               os_path_join output_dir (path_stem input_file +:+ suffix)
               = output_dir +:+ Chars.separator output_dir +:+ name
               /\ Chars.has_char slash name = false).
  { intros suffix Hs. exists (path_stem input_file +:+ suffix).
    assert (Hn : Chars.has_char slash (path_stem input_file +:+ suffix) = false)
      by now rewrite has_char_app, path_stem_no_slash, Hs.
    split; [| exact Hn].
    now apply os_path_join_relative, no_slash_relative. }
  split; [apply Hstem; reflexivity |].
  split; [apply Hstem; reflexivity |].
  split; [apply Hstem; reflexivity |].
  unfold GenerateBlog.blog_file_path.
  set (t := lower _).
  exists (replace "/" "_" (replace " " "_" t) +:+ "_blog.md").
  assert (Hslash : Chars.has_char slash
                     (replace "/" "_" (replace " " "_" t) +:+ "_blog.md")
                   = false).
  { rewrite has_char_app, (replace_one_char "/" "_").
    rewrite map_chars_no_char; [reflexivity |].
    intros d. destruct (Ascii.eqb_spec "/" d) as [<- | Hd]; [reflexivity |].
    apply Ascii.eqb_neq. exact Hd. }
  split; [now apply os_path_join_relative, no_slash_relative |].
  split; [exact Hslash |].
  rewrite has_char_app, (replace_one_char "/" "_"), (replace_one_char " " "_").
  rewrite map_chars_keeps_no_char; [reflexivity | |].
  - intros d Hd. destruct (Ascii.eqb "/" d); [reflexivity | exact Hd].
  - apply map_chars_no_char. intros d.
    destruct (Ascii.eqb_spec " " d) as [<- | Hd]; [reflexivity |].
    apply Ascii.eqb_neq. exact Hd.
Qed.

(** An input path that climbs out of its directory, as it is treated. *)
Example transcript_of_a_climbing_path :
  TranscribeAudio.transcript_file_path "../../etc/passwd" "./transcriptions"
  = "./transcriptions/passwd_transcript.txt"
  /\ GenerateBlog.blog_file_path "s.txt" "./blogs" "../My Post/2"
     = "./blogs/.._my_post_2_blog.md".
Proof. split; reflexivity. Qed.

(** ** Inputs that share their artifacts *)
Section CollisionFacts.
Import Chars.

Lemma split_slash_app cur a b :
  split_slash cur (a +:+ String slash b)
  = split_slash cur a ++ split_slash "" b.
Proof.
  revert cur. induction a as [| c a IH]; intros cur.
  - reflexivity.
  - rewrite app_cons. simpl. destruct (Ascii.eqb c slash).
    + now rewrite IH.
    + apply IH.
Qed.

Lemma split_slash_component cur name :
  has_char slash name = false -> split_slash cur name = [cur +:+ name].
Proof.
  revert cur. induction name as [| c name IH]; intros cur H.
  - simpl. now rewrite app_empty_r.
  - cbn [has_char] in H. apply orb_false_iff in H as [Hc Hn].
    cbn [split_slash].
    assert (Hc' : Ascii.eqb c slash = false)
      by (rewrite Ascii.eqb_sym; exact Hc).
    rewrite Hc', (IH _ Hn). now rewrite app_assoc_str.
Qed.

(** The name of a path is its last component, whatever stands before. *)
Lemma path_name_of_file dir name :
  has_char slash name = false ->
  name <> "" -> name <> String dot "" ->
  path_name (dir +:+ String slash name) = name.
Proof.
  intros Hs Hne Hdot. unfold path_name.
  rewrite split_slash_app, (split_slash_component "" name Hs).
  rewrite filter_app.
  rewrite (filter_cons_True _ name []) by (split; assumption).
  rewrite filter_nil. apply last_last.
Qed.

Lemma to_lower_idempotent c : to_lower (to_lower c) = to_lower c.
Proof. destruct c as [[] [] [] [] [] [] [] []]; reflexivity. Qed.

Lemma lower_idempotent s : lower (lower s) = lower s.
Proof.
  unfold lower. induction s as [| c s IH]; [reflexivity |].
  simpl. now rewrite to_lower_idempotent, IH.
Qed.

Lemma map_chars_map_chars f g s :
  map_chars f (map_chars g s) = map_chars (fun c => f (g c)) s.
Proof. induction s as [| c s IH]; [reflexivity |]. simpl. now rewrite IH. Qed.

Lemma map_chars_ext f g s :
  (forall c, f c = g c) -> map_chars f s = map_chars g s.
Proof.
  intros H. induction s as [| c s IH]; [reflexivity |].
  simpl. now rewrite H, IH.
Qed.

Lemma map_chars_empty f s :
  String.eqb (map_chars f s) "" = String.eqb s "".
Proof. now destruct s. Qed.

End CollisionFacts.

(** X15. The artifacts are named after the file name of the input alone:
    two input files with the same name in different directories are
    transcribed, and summarised, to the same paths, so the later run
    overwrites the files of the earlier one. *)
Theorem same_file_name_same_artifacts :
  forall dir1 dir2 name output_dir,
    Chars.has_char slash name = false ->
    name <> "" ->
    name <> "." ->
    let a := dir1 +:+ String slash name in
    let b := dir2 +:+ String slash name in
    TranscribeAudio.transcript_file_path a output_dir
    = TranscribeAudio.transcript_file_path b output_dir
    /\ TranscribeAudio.segments_file_path a output_dir
       = TranscribeAudio.segments_file_path b output_dir
    /\ SummarizeText.summary_file_path a output_dir
       = SummarizeText.summary_file_path b output_dir
    /\ (forall title,
          GenerateBlog.blog_file_path a output_dir title
          = GenerateBlog.blog_file_path b output_dir title).
Proof.
  intros dir1 dir2 name output_dir Hs Hne Hdot a b.
  assert (Hstem : path_stem a = path_stem b).
  { unfold path_stem. subst a b.
    now rewrite !path_name_of_file by assumption. }
  unfold TranscribeAudio.transcript_file_path,
    TranscribeAudio.segments_file_path, SummarizeText.summary_file_path,
    GenerateBlog.blog_file_path.
  rewrite Hstem. repeat split.
Qed.

Lemma same_file_name_same_artifacts_witness :
  let a := "monday" +:+ String slash "talk.wav" in
  let b := "archive/tuesday" +:+ String slash "talk.wav" in
  TranscribeAudio.transcript_file_path a "./transcriptions"
  = TranscribeAudio.transcript_file_path b "./transcriptions"
  /\ TranscribeAudio.segments_file_path a "./transcriptions"
     = TranscribeAudio.segments_file_path b "./transcriptions"
  /\ SummarizeText.summary_file_path a "./transcriptions"
     = SummarizeText.summary_file_path b "./transcriptions"
  /\ (forall title,
        GenerateBlog.blog_file_path a "./transcriptions" title
        = GenerateBlog.blog_file_path b "./transcriptions" title).
Proof.
  apply (same_file_name_same_artifacts "monday" "archive/tuesday" "talk.wav"
           "./transcriptions"); [reflexivity | discriminate | discriminate].
Defined.

(** X16. The blog file does not tell apart titles that differ in letter
    case or in spaces against underscores: a title, the same title in
    lower case, and the same title with its spaces replaced by underscores
    all name the same blog file. *)
Theorem blog_file_path_normalises_title :
  forall input_file output_dir title,
    GenerateBlog.blog_file_path input_file output_dir (lower title)
    = GenerateBlog.blog_file_path input_file output_dir title
    /\ GenerateBlog.blog_file_path input_file output_dir
         (replace " " "_" title)
       = GenerateBlog.blog_file_path input_file output_dir title.
Proof.
  intros input_file output_dir title.
  unfold GenerateBlog.blog_file_path. split.
  - assert (He : String.eqb (lower title) "" = String.eqb title "")
      by apply map_chars_empty.
    rewrite He. destruct (String.eqb title ""); [reflexivity |].
    now rewrite lower_idempotent.
  - rewrite (replace_one_char " " "_" title), map_chars_empty.
    destruct (String.eqb title ""); [reflexivity |].
    do 2 f_equal. unfold lower.
    rewrite !(replace_one_char " " "_"), !(replace_one_char "/" "_").
    rewrite !map_chars_map_chars. apply map_chars_ext.
    intros c. destruct c as [[] [] [] [] [] [] [] []]; reflexivity.
Qed.

(** A title with a capital letter outside ASCII ([201] is E with acute
    accent, [233] its lower case). *)
Example blog_title_with_accent :
  GenerateBlog.blog_file_path "s.txt" "./blogs"
    ("CAF" +:+ String (ascii_of_nat 201) " Noir")
  = "./blogs/caf" +:+ String (ascii_of_nat 233) "_noir_blog.md".
Proof. reflexivity. Qed.

(** Two titles and the file they share. *)
Example blog_titles_that_collide :
  GenerateBlog.blog_file_path "s.txt" "./blogs" "My Post"
  = "./blogs/my_post_blog.md"
  /\ GenerateBlog.blog_file_path "s.txt" "./blogs" "my_post"
     = "./blogs/my_post_blog.md".
Proof. split; reflexivity. Qed.

(** ** The command lines *)

(** X17. A command line whose input file does not exist stops at once:
    the [main] of [transcribe_audio.py], [summarize_text.py] and
    [generate_blog.py] prints that the file was not found and exits with
    status 1 before anything else is done; no directory is made, no library
    is called, no file is written, in any environment. *)
Theorem main_missing_input_exits_at_once :
  forall env input_file w,
    files w !! input_file = None ->
    let stopped (line : string) :=
      (Raise (BaseException "SystemExit" "1") : result unit,
       {| files := files w;
          stdout := stdout w ++ [line +:+ input_file];
          calls := calls w |}) in
    (forall model output,
        TranscribeAudioCli.main env input_file model output w
        = stopped "Error: Audio file not found: ")
    /\ (forall method output max_length,
          SummarizeTextCli.main env input_file method output max_length w
          = stopped "Error: Input file not found: ")
    /\ (forall title method output video_url,
          GenerateBlogCli.main env input_file title method output video_url w
          = stopped "Error: Input file not found: ").
Proof.
  intros env input_file w Hf stopped. subst stopped.
  unfold TranscribeAudioCli.main, SummarizeTextCli.main, GenerateBlogCli.main,
    PySys.os_path_exists.
  repeat split; intros; unfold bind at 1; rewrite Hf; reflexivity.
Qed.

Lemma main_missing_input_exits_at_once_witness :
  let stopped (line : string) :=
    (Raise (BaseException "SystemExit" "1") : result unit,
     {| files := ∅;
        stdout := [line +:+ "summaries/abc123_summary.txt"];
        calls := [] |}) in
  (forall model output,
      TranscribeAudioCli.main Scenario.env_ok "summaries/abc123_summary.txt"
        model output Scenario.empty_world
      = stopped "Error: Audio file not found: ")
  /\ (forall method output max_length,
        SummarizeTextCli.main Scenario.env_ok "summaries/abc123_summary.txt"
          method output max_length Scenario.empty_world
        = stopped "Error: Input file not found: ")
  /\ (forall title method output video_url,
        GenerateBlogCli.main Scenario.env_ok "summaries/abc123_summary.txt"
          title method output video_url Scenario.empty_world
        = stopped "Error: Input file not found: ").
Proof.
  apply (main_missing_input_exits_at_once Scenario.env_ok
           "summaries/abc123_summary.txt" Scenario.empty_world).
  reflexivity.
Defined.

Section MainFacts.
Context (env : Env).

(** A [main] that goes past its existence test and ends normally: the
    stage function has returned a value that is not falsy. *)
Lemma exists_then_run_inv {A : Type} (input_file line : string)
    (stage : M (option A)) (falsy : option A -> bool) w w' :
  (let* found := PySys.os_path_exists input_file in
   if negb found then print (line +:+ input_file) ;; PySys.sys_exit 1
   else let* result := stage in
        if falsy result then PySys.sys_exit 1 else ret tt) w
  = (Return tt, w') ->
  exists result, stage w = (Return result, w') /\ falsy result = false.
Proof.
  unfold bind at 1, PySys.os_path_exists.
  destruct (files w !! input_file); cbn [negb]; [| discriminate].
  intros H. apply bind_Return_inv in H as (result & w1 & Hs & H).
  exists result. destruct (falsy result); [discriminate H |].
  injection H as <-. now split.
Qed.

End MainFacts.

(** X18. A command line that ends normally has produced its artifact: when
    the [main] of [summarize_text.py] or of [generate_blog.py] returns
    without [sys.exit], the summary file, respectively the blog file, holds
    a text that is not empty; when the [main] of [transcribe_audio.py]
    does, the transcript file and the segments file are there.  The blog
    file is named after the title or, without a title, after the input
    file, whose name is then taken without the micro sign and y with
    diaeresis. *)
Theorem main_success_means_artifact :
  forall env input_file output w,
    (forall method max_length,
        let run := SummarizeTextCli.main env input_file method output
                     max_length w in
        fst run = Return tt ->
        exists s, s <> ""
                  /\ files (snd run)
                       !! SummarizeText.summary_file_path input_file output
                     = Some s)
    /\ (forall title method video_url,
          let run := GenerateBlogCli.main env input_file title method output
                       video_url w in
          fst run = Return tt ->
          title <> "" \/ title_fits (path_stem input_file) = true ->
          exists s, s <> ""
                    /\ files (snd run)
                         !! GenerateBlog.blog_file_path input_file output title
                       = Some s)
    /\ (forall model,
          let run := TranscribeAudioCli.main env input_file model output w in
          fst run = Return tt ->
          is_Some (files (snd run)
                     !! TranscribeAudio.transcript_file_path input_file output)
          /\ is_Some (files (snd run)
                        !! TranscribeAudio.segments_file_path input_file
                             output)).
Proof.
  intros env input_file output w. split; [| split].
  - intros method max_length run. subst run.
    destruct (SummarizeTextCli.main env input_file method output max_length w)
      as [r w'] eqn:E.
    cbn [fst snd]. intros ->. unfold SummarizeTextCli.main in E.
    apply (exists_then_run_inv _ "Error: Input file not found: " _
             (fun r => negb (truthy r))) in E as (result & Hs & Ht).
    destruct result as [s |]; [| discriminate Ht].
    apply summarize_text_Some_inv in Hs as (Hne & _ & _ & Hf). eauto.
  - intros title method video_url run. subst run.
    destruct (GenerateBlogCli.main env input_file title method output
                video_url w) as [r w'] eqn:E.
    cbn [fst snd]. intros -> _. unfold GenerateBlogCli.main in E.
    apply (exists_then_run_inv _ "Error: Input file not found: " _
             (fun r => negb (truthy r))) in E as (result & Hs & Ht).
    destruct result as [s |]; [| discriminate Ht].
    apply generate_blog_Some_inv in Hs as (Hne & _ & Hf). eauto.
  - intros model run. subst run.
    destruct (TranscribeAudioCli.main env input_file model output w)
      as [r w'] eqn:E.
    cbn [fst snd]. intros ->. unfold TranscribeAudioCli.main in E.
    apply (exists_then_run_inv _ "Error: Audio file not found: " _
             PySys.falsy_dict) in E as (result & Hs & Ht).
    destruct result as [res |]; [| discriminate Ht].
    apply transcribe_audio_Some_inv in Hs as [Ht1 Ht2].
    unfold TranscribeAudio.transcript_file_path,
      TranscribeAudio.segments_file_path. eauto.
Qed.

Lemma main_success_means_artifact_witness :
  (exists s, s <> ""
             /\ files (snd (SummarizeTextCli.main Scenario.env_ok
                              "summaries/abc123_summary.txt" "transformers"
                              "./out" 150 Scenario.summary_world))
                  !! SummarizeText.summary_file_path
                       "summaries/abc123_summary.txt" "./out"
                = Some s)
  /\ (exists s, s <> ""
                /\ files (snd (GenerateBlogCli.main Scenario.env_ok
                                 "summaries/abc123_summary.txt" "" "template"
                                 "./out" "" Scenario.summary_world))
                     !! GenerateBlog.blog_file_path
                          "summaries/abc123_summary.txt" "./out" ""
                   = Some s)
  /\ (is_Some (files (snd (TranscribeAudioCli.main Scenario.env_ok
                             "downloads/talk.wav" "base" "./out"
                             Scenario2.audio_world))
                 !! TranscribeAudio.transcript_file_path
                      "downloads/talk.wav" "./out")
      /\ is_Some (files (snd (TranscribeAudioCli.main Scenario.env_ok
                                "downloads/talk.wav" "base" "./out"
                                Scenario2.audio_world))
                    !! TranscribeAudio.segments_file_path
                         "downloads/talk.wav" "./out")).
Proof.
  destruct (main_success_means_artifact Scenario.env_ok
              "summaries/abc123_summary.txt" "./out" Scenario.summary_world)
    as (Hs & Hb & _).
  destruct (main_success_means_artifact Scenario.env_ok
              "downloads/talk.wav" "./out" Scenario2.audio_world)
    as (_ & _ & Ht).
  split; [| split].
  - apply (Hs "transformers" 150). reflexivity.
  - apply (Hb "" "template" ""); [reflexivity | right; reflexivity].
  - apply (Ht "base"). reflexivity.
Defined.

(** ** The helpers that call a library *)

(** X19. An answer without items is a failure, not a crash: when the
    summariser returns an empty list, or the API a response without
    choices, [summarize_with_transformers], [summarize_with_openai] and
    [generate_blog_with_openai] catch the [IndexError], print it and return
    [None]. *)
Theorem empty_answer_gives_None :
  forall env text title model_name max_length w,
    (forall summarizer fs1 fs2,
        transformers_installed env = true ->
        transformers_pipeline env "summarization" model_name (files w)
        = (Return summarizer, fs1) ->
        summarizer_call env summarizer text max_length 30 false fs1
        = (Return [], fs2) ->
        SummarizeText.summarize_with_transformers env text model_name
          max_length w
        = (Return None,
           {| files := fs2;
              stdout :=
                stdout w
                ++ ["Error with transformers summarization: list index out of range"];
              calls :=
                calls w ++ [pipeline "summarization" model_name;
                            Py.summarizer summarizer text max_length 30 false]
           |}))
    /\ (forall fs1,
          openai_installed env = true ->
          (forall messages,
              openai_ChatCompletion_create env model_name messages max_length
                (files w) = (Return [], fs1)) ->
          fst (SummarizeText.summarize_with_openai env text model_name
                 max_length w) = Return None
          /\ fst (GenerateBlog.generate_blog_with_openai env text title
                    model_name max_length w) = Return None).
Proof.
  intros env text title model_name max_length w. split.
  - intros summarizer fs1 fs2 Hi Hp Hs.
    unfold SummarizeText.summarize_with_transformers.
    erewrite try_except_caught_print.
    2:{ unfold SummarizeText.TRANSFORMERS_AVAILABLE, imported. rewrite Hi.
        call_returns Hp. call_returns Hs. reflexivity. }
    cbn [files stdout calls str_exn]. now rewrite <- !app_assoc.
  - intros fs1 Hi Hapi. split.
    + unfold SummarizeText.summarize_with_openai.
      erewrite try_except_caught_print; [reflexivity |].
      unfold SummarizeText.OPENAI_AVAILABLE, imported. rewrite Hi.
      erewrite bind_call_ext by apply Hapi. reflexivity.
    + unfold GenerateBlog.generate_blog_with_openai.
      erewrite try_except_caught_print; [reflexivity |].
      unfold GenerateBlog.OPENAI_AVAILABLE, imported. rewrite Hi.
      erewrite bind_call_ext by apply Hapi. reflexivity.
Qed.

Lemma empty_answer_gives_None_witness :
  let env := Scenario2.env_empty_answers in
  let w := Scenario.empty_world in
  SummarizeText.summarize_with_transformers env "A long text."
    "facebook/bart-large-cnn" 150 w
  = (Return None,
     {| files := ∅;
        stdout :=
          stdout w
          ++ ["Error with transformers summarization: list index out of range"];
        calls :=
          calls w ++ [pipeline "summarization" "facebook/bart-large-cnn";
                      Py.summarizer "facebook/bart-large-cnn" "A long text."
                        150 30 false]
     |})
  /\ fst (SummarizeText.summarize_with_openai env "A long text."
            "gpt-3.5-turbo" 150 w) = Return None
  /\ fst (GenerateBlog.generate_blog_with_openai env "A long text." "Title"
            "gpt-3.5-turbo" 150 w) = Return None.
Proof.
  intros env w.
  destruct (empty_answer_gives_None env "A long text." "Title"
              "facebook/bart-large-cnn" 150 w) as [Ht _].
  destruct (empty_answer_gives_None env "A long text." "Title" "gpt-3.5-turbo"
              150 w) as [_ Ho].
  split.
  - apply (Ht "facebook/bart-large-cnn" ∅ ∅); reflexivity.
  - apply (Ho ∅); [reflexivity | intros messages; reflexivity].
Defined.

(** X20. The helpers can be called when their library is not installed:
    the name bound by the import that failed raises [NameError], which the
    helper catches; it prints the error and returns [None] without any call
    into a library. *)
Theorem helper_without_library_gives_None :
  forall env text title model max_length w,
    (transformers_installed env = false ->
     SummarizeText.summarize_with_transformers env text model max_length w
     = (Return None,
        {| files := files w;
           stdout :=
             stdout w
             ++ ["Error with transformers summarization: name 'pipeline' is not defined"];
           calls := calls w |}))
    /\ (openai_installed env = false ->
        SummarizeText.summarize_with_openai env text model max_length w
        = (Return None,
           {| files := files w;
              stdout :=
                stdout w
                ++ ["Error with OpenAI summarization: name 'openai' is not defined"];
              calls := calls w |})
        /\ GenerateBlog.generate_blog_with_openai env text title model
             max_length w
           = (Return None,
              {| files := files w;
                 stdout :=
                   stdout w
                   ++ ["Error with OpenAI blog generation: name 'openai' is not defined"];
                 calls := calls w |})).
Proof.
  intros env text title model max_length w. split.
  - intros Hi. unfold SummarizeText.summarize_with_transformers.
    erewrite try_except_caught_print; [reflexivity |].
    unfold SummarizeText.TRANSFORMERS_AVAILABLE, imported. now rewrite Hi.
  - intros Hi. split.
    + unfold SummarizeText.summarize_with_openai.
      erewrite try_except_caught_print; [reflexivity |].
      unfold SummarizeText.OPENAI_AVAILABLE, imported. now rewrite Hi.
    + unfold GenerateBlog.generate_blog_with_openai.
      erewrite try_except_caught_print; [reflexivity |].
      unfold GenerateBlog.OPENAI_AVAILABLE, imported. now rewrite Hi.
Qed.

Lemma helper_without_library_gives_None_witness :
  let env := Scenario2.env_nothing_installed in
  let w := Scenario.empty_world in
  SummarizeText.summarize_with_transformers env "A long text."
    "facebook/bart-large-cnn" 150 w
  = (Return None,
     {| files := files w;
        stdout :=
          stdout w
          ++ ["Error with transformers summarization: name 'pipeline' is not defined"];
        calls := calls w |})
  /\ SummarizeText.summarize_with_openai env "A long text." "gpt-3.5-turbo"
       150 w
     = (Return None,
        {| files := files w;
           stdout :=
             stdout w
             ++ ["Error with OpenAI summarization: name 'openai' is not defined"];
           calls := calls w |})
  /\ GenerateBlog.generate_blog_with_openai env "A long text." "Title"
       "gpt-3.5-turbo" 150 w
     = (Return None,
        {| files := files w;
           stdout :=
             stdout w
             ++ ["Error with OpenAI blog generation: name 'openai' is not defined"];
           calls := calls w |}).
Proof.
  intros env w.
  destruct (helper_without_library_gives_None env "A long text." "Title"
              "facebook/bart-large-cnn" 150 w) as [Ht _].
  destruct (helper_without_library_gives_None env "A long text." "Title"
              "gpt-3.5-turbo" 150 w) as [_ Ho].
  split; [apply Ht; reflexivity | apply Ho; reflexivity].
Defined.

(** X21. [summarize_text] leaves the length to the library: with the local
    model it calls the summariser on the stripped input with the
    [max_length] it was given, a minimum of 30 and no sampling, whatever
    [max_length] is (below 30 too), and it returns and writes the first
    summary of the answer as it is, without shortening it. *)
Theorem summarize_text_leaves_length_to_library :
  forall env input_file output_dir max_length w content summarizer fs1
         summary others fs2,
    fault_free env ->
    files w !! input_file = Some content ->
    transformers_installed env = true ->
    transformers_pipeline env "summarization" "facebook/bart-large-cnn"
      (files w) = (Return summarizer, fs1) ->
    summarizer_call env summarizer (strip content) max_length 30 false fs1
    = (Return (summary :: others), fs2) ->
    summary <> "" ->
    let run :=
      SummarizeText.summarize_text env input_file output_dir "transformers"
        max_length w in
    fst run = Return (Some summary)
    /\ calls (snd run)
       = calls w ++ [pipeline "summarization" "facebook/bart-large-cnn";
                     Py.summarizer summarizer (strip content) max_length 30
                       false]
    /\ files (snd run)
       = <[SummarizeText.summary_file_path input_file output_dir := summary]>
           fs2.
Proof.
  intros env input_file output_dir max_length w content summarizer fs1
         summary others fs2 Hff Hc Hi Hp Hs Hne run.
  subst run.
  rewrite (summarize_text_transformers_run env input_file output_dir
             max_length w content summarizer fs1 summary others fs2
             Hff Hc Hi Hp Hs).
  - repeat split.
  - destruct summary; [congruence | reflexivity].
Qed.

Lemma summarize_text_leaves_length_to_library_witness :
  let run :=
    SummarizeText.summarize_text Scenario.env_ok "summaries/abc123_summary.txt"
      "./summaries" "transformers" 10 Scenario.summary_world in
  fst run = Return (Some "A greeting and a farewell.")
  /\ calls (snd run)
     = calls Scenario.summary_world
       ++ [pipeline "summarization" "facebook/bart-large-cnn";
           Py.summarizer "facebook/bart-large-cnn"
             (strip "  A greeting and a farewell.") 10 30 false]
  /\ files (snd run)
     = <[SummarizeText.summary_file_path "summaries/abc123_summary.txt"
           "./summaries" := "A greeting and a farewell."]>
         (files Scenario.summary_world).
Proof.
  apply (summarize_text_leaves_length_to_library Scenario.env_ok
           "summaries/abc123_summary.txt" "./summaries" 10
           Scenario.summary_world "  A greeting and a farewell."
           "facebook/bart-large-cnn" (files Scenario.summary_world)
           "A greeting and a farewell." [] (files Scenario.summary_world));
    try reflexivity.
  - intros op. reflexivity.
  - discriminate.
Defined.

(** ** The date in the blog *)

Lemma app_same_length_inv (a b x y : string) :
  String.length a = String.length b -> a +:+ x = b +:+ y -> a = b.
Proof.
  revert b. induction a as [| c a IH]; intros [| d b] Hl H;
    try discriminate Hl; [reflexivity |].
  rewrite !app_cons in H. injection H as -> H.
  f_equal. apply IH; [now injection Hl | exact H].
Qed.

Lemma render_template_date_inj d1 d2 summary title video_url :
  String.length d1 = String.length d2 ->
  GenerateBlog.render_template d1 summary title video_url
  = GenerateBlog.render_template d2 summary title video_url ->
  d1 = d2.
Proof.
  intros Hl H.
  unfold GenerateBlog.render_template, GenerateBlog.template_text in H.
  cbn [GenerateBlog.unlines] in H.
  destruct (negb (String.eqb video_url ""));
    rewrite !app_assoc_str in H;
    do 8 (apply (inj (String.app _)) in H);
    exact (app_same_length_inv _ _ _ _ Hl H).
Qed.

(** X22. The template blog carries the date of the day: generated on two
    different days (dates of the same length, as [%Y-%m-%d] gives), from
    the same summary, title and URL, the two texts differ, so a later run
    rewrites the blog file with another content. *)
Theorem blog_template_changes_with_the_date :
  forall env1 env2 summary title video_url w1 w2,
    String.length (today env1) = String.length (today env2) ->
    today env1 <> today env2 ->
    fst (GenerateBlog.generate_blog_template env1 summary title video_url w1)
    <> fst (GenerateBlog.generate_blog_template env2 summary title video_url
              w2).
Proof.
  intros env1 env2 summary title video_url w1 w2 Hl Hd H.
  apply Hd. unfold GenerateBlog.generate_blog_template,
    GenerateBlog.now_strftime, bind, ret in H. cbn [fst] in H.
  injection H as H.
  exact (render_template_date_inj _ _ _ _ _ Hl H).
Qed.

Lemma blog_template_changes_with_the_date_witness :
  fst (GenerateBlog.generate_blog_template Scenario.env_ok
         "A greeting and a farewell." "" "" Scenario.empty_world)
  <> fst (GenerateBlog.generate_blog_template Scenario2.env_next_day
            "A greeting and a farewell." "" "" Scenario.empty_world).
Proof.
  apply (blog_template_changes_with_the_date Scenario.env_ok
           Scenario2.env_next_day "A greeting and a farewell." "" ""
           Scenario.empty_world Scenario.empty_world);
    [reflexivity | discriminate].
Defined.

(** ** Reading the segments file back *)
Section ReadBack.
Import Chars SegmentsFile.

Lemma split_at_app c a r :
  has_char c a = false -> split_at c (a +:+ String c r) = Some (a, r).
Proof.
  induction a as [| d a IH]; intros H.
  - simpl. now rewrite Ascii.eqb_refl.
  - cbn [has_char] in H. apply orb_false_iff in H as [Hd Ha].
    rewrite app_cons. cbn [split_at]. now rewrite Hd, (IH Ha).
Qed.

Lemma drop_line_feed_app t : drop_line_feed (t +:+ nl) = Some t.
Proof.
  induction t as [| c t IH]; [reflexivity |].
  rewrite app_cons. cbn [drop_line_feed]. rewrite IH.
  destruct (t +:+ nl) eqn:E; [| reflexivity].
  destruct t; discriminate E.
Qed.

Lemma digits_point_2_no_char c seen s :
  Shape.digits_point_2 seen s = true ->
  Shape.is_digit c = false -> c <> dot ->
  has_char c s = false.
Proof.
  intros H Hc Hdot. revert seen H.
  assert (Hnd : forall d, Shape.is_digit d = true -> Ascii.eqb c d = false).
  { intros d Hd. apply Ascii.eqb_neq. intros ->. congruence. }
  assert (Hcd : Ascii.eqb c dot = false) by now apply Ascii.eqb_neq.
  induction s as [| d s IH]; intros seen H; [reflexivity |].
  cbn [Shape.digits_point_2] in H. cbn [has_char].
  destruct (Ascii.eqb_spec d dot) as [-> | Hd].
  - apply andb_true_iff in H as [_ H]. rewrite Hcd.
    destruct s as [| d1 [| d2 [| d3 s]]]; try discriminate H.
    apply andb_true_iff in H as [H1 H2]. cbn [has_char orb].
    now rewrite (Hnd _ H1), (Hnd _ H2).
  - apply andb_true_iff in H as [Hdd H].
    rewrite (Hnd _ Hdd). cbn [orb]. now apply (IH true).
Qed.

(** The numeral printed for a float holds neither a space nor a bracket. *)
Lemma format_2f_no_delimiter c x :
  c = " "%char \/ c = "]"%char -> has_char c (format_2f x) = false.
Proof.
  intros Hc.
  assert (Hd : Shape.is_digit c = false) by (destruct Hc as [-> | ->]; reflexivity).
  assert (Hdot : c <> dot) by (destruct Hc as [-> | ->]; discriminate).
  assert (Hminus : Ascii.eqb c (ascii_of_nat 45) = false)
    by (destruct Hc as [-> | ->]; reflexivity).
  destruct (Shape.is_finite x) eqn:Hfin.
  - pose proof (format_2f_is_fixed2 x Hfin) as H.
    destruct (format_2f x) as [| d s]; [reflexivity |].
    unfold Shape.is_fixed2 in H. cbn [has_char].
    destruct (Ascii.eqb_spec d (ascii_of_nat 45)) as [-> | Hm].
    + rewrite Hminus. cbn [orb].
      now apply (digits_point_2_no_char c false).
    + now apply (digits_point_2_no_char c false (String d s)).
  - destruct x as [s | s | | s m e]; try discriminate Hfin;
      [destruct s |]; destruct Hc as [-> | ->]; reflexivity.
Qed.

End ReadBack.

(** The line of one segment, read back. *)
Lemma read_line_segment_line sg :
  SegmentsFile.read_line (TranscribeAudio.segment_line sg)
  = Some (format_2f (seg_start sg), format_2f (seg_end sg), seg_text sg).
Proof.
  unfold SegmentsFile.read_line, TranscribeAudio.segment_line.
  change (SegmentsFile.strip_prefix "[" ("[" +:+ ?r)) with (Some r).
  cbv beta iota.
  change (" - " +:+ ?r) with (String " " ("- " +:+ r)).
  rewrite split_at_app by (apply format_2f_no_delimiter; now left).
  change (SegmentsFile.strip_prefix "- " ("- " +:+ ?r)) with (Some r).
  cbv beta iota.
  change ("]: " +:+ ?r) with (String "]" (": " +:+ r)).
  rewrite split_at_app by (apply format_2f_no_delimiter; now right).
  change (SegmentsFile.strip_prefix ": " (": " +:+ ?r)) with (Some r).
  cbv beta iota.
  now rewrite drop_line_feed_app.
Qed.

(** A text that looks like the start of a line is read back as text. *)
Example segment_line_with_brackets :
  SegmentsFile.read_line
    (TranscribeAudio.segment_line
       {| seg_start := S754_zero false;
          seg_end := S754_finite false 5 (-1);
          seg_text := " [0.00 - 9.99]: not a timestamp" |})
  = Some ("0.00", "2.50", " [0.00 - 9.99]: not a timestamp").
Proof. reflexivity. Qed.

(** X23. The segments file can be read back without ambiguity.  The line
    written for a segment, read with the start up to the first space, the
    end up to the first closing bracket and the text up to the final line
    feed, gives back the two printed timestamps and the text unchanged,
    even when the text itself holds brackets, dashes or colons; and for
    segments with finite timestamps and a text without line feed, reading
    the lines of the whole file gives back the segments one by one, in
    order. *)
Theorem segments_file_reads_back :
  (forall sg,
      SegmentsFile.read_line (TranscribeAudio.segment_line sg)
      = Some (format_2f (seg_start sg), format_2f (seg_end sg), seg_text sg))
  /\ (forall segs,
        forallb Shape.plain_segment segs = true ->
        map SegmentsFile.read_line
            (Shape.file_lines
               (Shape.concat_lines (map TranscribeAudio.segment_line segs)))
        = map (fun sg =>
                 Some (format_2f (seg_start sg), format_2f (seg_end sg),
                       seg_text sg))
              segs).
Proof.
  split; [exact read_line_segment_line |].
  intros segs Hplain. rewrite file_lines_concat.
  - rewrite map_map. apply map_ext. intros sg. apply read_line_segment_line.
  - induction segs as [| sg segs IH]; simpl; [constructor |].
    simpl in Hplain. apply andb_true_iff in Hplain as [Hsg Hl].
    constructor; [now apply segment_line_one_line | now apply IH].
Qed.

Lemma segments_file_reads_back_witness :
  SegmentsFile.read_line
    (TranscribeAudio.segment_line
       {| seg_start := S754_zero false;
          seg_end := S754_finite false 5 (-1);
          seg_text := " [0.00 - 9.99]: not a timestamp" |})
  = Some ("0.00", "2.50", " [0.00 - 9.99]: not a timestamp")
  /\ map SegmentsFile.read_line
         (Shape.file_lines
            (Shape.concat_lines
               (map TranscribeAudio.segment_line (segments Scenario.talk))))
     = [Some ("0.00", "2.50", " Hello world.");
        Some ("2.50", "3.12", " Bye.")].
Proof.
  destruct segments_file_reads_back as [Hline Hfile].
  split.
  - apply (Hline {| seg_start := S754_zero false;
                    seg_end := S754_finite false 5 (-1);
                    seg_text := " [0.00 - 9.99]: not a timestamp" |}).
  - apply (Hfile (segments Scenario.talk)). reflexivity.
Defined.
